(** * guard.py: a shallow embedding of the anomaly-detection engine

    The development follows [src/guard.py] top to bottom: configuration
    constants, helper functions, the alert de-duplicator, the single-pass
    file analyzer, the [Guard] event handler and the seed scan of [main].

    Modelling conventions.
    - Python floats (clock readings, modification times, ratios, entropy)
      are rationals [Q]; rounding of float arithmetic is not modelled.
    - [bytes] is [list byte]; [str] is [string]; a [Path] is the string
      pathlib prints for it.
    - dictionaries are stdpp [gmap]s; a [Counter] over byte values keeps
      insertion order in an association list, as a Python dict does.
    - exceptions are an explicit [outcome]; [print] appends to a list of
      lines.
    - whatever the operating system answers ([stat], [read_bytes], the
      clock) is an explicit argument of the function that asks for it.
    - [math.log2], [blake3] and float formatting belong to libraries, not
      to this repository: they are variables of the section. *)

From Stdlib Require Import QArith Lqa ZArith List String Ascii.
From Stdlib.Strings Require Import Byte.
From stdpp Require Import base gmap strings list.

Local Open Scope string_scope.
Local Open Scope list_scope.

(** ** Outcomes of fallible calls *)

Inductive outcome (A : Type) : Type :=
| Return (a : A)
| Raise (e : string).
Arguments Return {A} a.
Arguments Raise {A} e.

(** ** Rationals as booleans *)

Definition Qltb (x y : Q) : bool := negb (Qle_bool y x).

(** ** Bytes *)

Definition byte_val (b : byte) : Z := Z.of_N (Byte.to_N b).

#[global] Instance byte_eq_dec : EqDecision byte.
Proof.
  intros x y. destruct (Byte.eqb x y) eqn:E.
  - left. apply Byte.byte_dec_bl. exact E.
  - right. intros ->. rewrite (Byte.byte_dec_lb eq_refl) in E. discriminate.
Defined.

#[global] Instance byte_countable : Countable byte :=
  inj_countable Byte.to_N Byte.of_N Byte.of_to_N.

(** ** Configuration (guard.py, lines 17-34) *)

Definition BURST_WINDOW_SEC : Q := 5.
Definition BURST_THRESHOLD : nat := 10.
Definition ALERT_COOLDOWN_SEC : Q := 5.
Definition ASCII_MIN : Z := 32.
Definition ASCII_MAX : Z := 127.
Definition PRINTABLE_THR : Q := 7 # 10.
Definition ENTROPY_THR : Q := 1 # 2.
Definition NGRAM_N : nat := 3.
Definition STEP : nat := 1.
Definition JACC_THR : Q := 7 # 10.
Definition MAX_REASONS : nat := 3.
Definition HONEYPOT_NAMES : list string := ["honey1.txt"; "honey2.txt"; "honey3.txt"].

(** What [f"{PRINTABLE_THR}"], [f"{JACC_THR}"], [f"{BURST_THRESHOLD}"] and
    [f"{BURST_WINDOW_SEC}"] print. *)
Definition PRINTABLE_THR_str : string := "0.7".
Definition JACC_THR_str : string := "0.7".
Definition BURST_THRESHOLD_str : string := "10".
Definition BURST_WINDOW_SEC_str : string := "5".

Definition newline : string := String (ascii_of_nat 10) EmptyString.

(** ** Paths (pathlib) *)

Definition Path : Type := string.

Definition str (p : Path) : string := p.

Fixpoint after_last_slash (s acc : string) : string :=
  match s with
  | EmptyString => acc
  | String c s' =>
      if Ascii.eqb c "/" then after_last_slash s' EmptyString
      else after_last_slash s' (acc ++ String c EmptyString)
  end.

(** [p.name]: the final component. *)
Definition name (p : Path) : string := after_last_slash p EmptyString.

(** [s.rfind(c)] *)
Fixpoint rfind (c : ascii) (s : string) : option nat :=
  match s with
  | EmptyString => None
  | String a s' =>
      match rfind c s' with
      | Some i => Some (S i)
      | None => if Ascii.eqb a c then Some 0%nat else None
      end
  end.

(** [p.suffix]: [name[i:]] for [i = name.rfind('.')] when
    [0 < i < len(name) - 1], the empty string otherwise. *)
Definition suffix (p : Path) : string :=
  let n := name p in
  match rfind "." n with
  | Some i =>
      if (0 <? i)%nat && (Z.of_nat i <? Z.of_nat (String.length n) - 1)%Z
      then String.substring i (String.length n - i) n
      else EmptyString
  | None => EmptyString
  end.

Definition ascii_lower (c : ascii) : ascii :=
  let n := nat_of_ascii c in
  if (65 <=? n)%nat && (n <=? 90)%nat then ascii_of_nat (n + 32) else c.

(** [s.lower()] *)
Fixpoint lower (s : string) : string :=
  match s with
  | EmptyString => EmptyString
  | String c s' => String (ascii_lower c) (lower s')
  end.

Definition startswith (c : ascii) (s : string) : bool :=
  match s with
  | String a _ => Ascii.eqb a c
  | EmptyString => false
  end.

Fixpoint endswith (c : ascii) (s : string) : bool :=
  match s with
  | EmptyString => false
  | String a EmptyString => Ascii.eqb a c
  | String _ s' => endswith c s'
  end.

(** ** Data model *)

(** A key of an n-gram map: [bytes] when the map was built in this
    process, [str] when it was read back from the JSON file (where
    [save_baseline] wrote [str(k)]). *)
Definition ngkey : Type := (list byte + string)%type.

Record FileProfile : Type := mkProfile {
  p_checksum : string;
  p_entropy : Q;
  p_mtime : Q;
  p_timestamp : string;
  p_ngram : gmap ngkey Z;
  p_size : Z
}.

Record BaselineEntry : Type := mkEntry {
  history : list FileProfile;
  latest : FileProfile
}.

(** A value of the baseline dictionary: an entry under a path, the list
    of decoy names under the key ["honeypots"]. *)
Inductive bval : Type :=
| BEntry (e : BaselineEntry)
| BNames (l : list string).

(** What the file system answers during one call of the analyzer. *)
Record stat_result : Type := mkStat {
  st_mtime : Q;
  st_size : Z
}.

Record FileView : Type := mkView {
  stat : outcome stat_result;        (* path.stat(), line 116 *)
  read_bytes : outcome (list byte);  (* path.read_bytes(), line 125 *)
  stat_again : outcome stat_result;  (* path.stat(), line 138 *)
  now_iso : string                   (* datetime.now().isoformat() *)
}.

(** ** Byte histogram and n-grams *)

(** [freq[b] += 1] on a [Counter]. *)
Fixpoint counter_incr (b : byte) (freq : list (byte * Z)) : list (byte * Z) :=
  match freq with
  | [] => [(b, 1%Z)]
  | (k, c) :: rest =>
      if bool_decide (k = b) then (k, (c + 1)%Z) :: rest
      else (k, c) :: counter_incr b rest
  end.

(** The loop of lines 143-150: [None] is the early return on a byte that
    is not below 127. *)
Fixpoint scan_bytes (raw : list byte) (freq : list (byte * Z)) (printable_cnt : Z)
  : option (list (byte * Z) * Z) :=
  match raw with
  | [] => Some (freq, printable_cnt)
  | b :: rest =>
      let freq' := counter_incr b freq in
      if (byte_val b <? 127)%Z then
        if (ASCII_MIN <=? byte_val b)%Z && (byte_val b <=? ASCII_MAX)%Z
        then scan_bytes rest freq' (printable_cnt + 1)%Z
        else scan_bytes rest freq' printable_cnt
      else None
  end.

(** [range(0, stop, step)] for a positive [step]. *)
Definition range_step (stop : Z) (step : nat) : list nat :=
  if (stop <=? 0)%Z then []
  else map (fun k => (k * step)%nat)
           (seq 0 (Z.to_nat ((stop + Z.of_nat step - 1) / Z.of_nat step))).

Definition counter_add (k : ngkey) (m : gmap ngkey Z) : gmap ngkey Z :=
  <[k := (default 0%Z (m !! k) + 1)%Z]> m.

Definition ngram_profile_with (data : list byte) (n step : nat) : gmap ngkey Z :=
  fold_left (fun m i => counter_add (inl (firstn n (skipn i data))) m)
            (range_step (Z.of_nat (length data) - Z.of_nat n + 1) step) ∅.

Definition ngram_profile (data : list byte) : gmap ngkey Z :=
  ngram_profile_with data NGRAM_N STEP.

Definition jaccard (a b : gmap ngkey Z) : Q :=
  let sa : gset ngkey := dom a in
  let sb : gset ngkey := dom b in
  let u := size (sa ∪ sb) in
  (inject_Z (Z.of_nat (size (sa ∩ sb))) /
   inject_Z (Z.of_nat (if (u =? 0)%nat then 1%nat else u)))%Q.

(** ** The analyzer (guard.py, lines 41-54 and 115-200) *)

Definition is_nil {A : Type} (l : list A) : bool :=
  match l with
  | [] => true
  | _ :: _ => false
  end.

Section Analyzer.

(** [math.log2], [blake3.blake3(data).hexdigest()] and the float
    formatting [f"{x:.Nf}"]. *)
Variable log2 : Q -> Q.
Variable blake3_hexdigest : list byte -> string.
Variable format_f : nat -> Q -> string.

Definition blake3sum (data : list byte) : string := blake3_hexdigest data.

Definition entropy (counter : list (byte * Z)) (total : Z) : Q :=
  let probs := map (fun kc => (inject_Z (snd kc) / inject_Z total)%Q) counter in
  (- fold_left Qplus (map (fun p => (p * log2 p)%Q) probs) 0)%Q.

(** [(prev or {}).get("latest", {})]; [None] stands for the empty
    dictionary. A non-empty list has no [get]. *)
Definition prev_latest_of (prev : option bval) : outcome (option FileProfile) :=
  match prev with
  | None => Return None
  | Some (BEntry e) => Return (Some (latest e))
  | Some (BNames []) => Return None
  | Some (BNames (_ :: _)) =>
      Raise "AttributeError: 'list' object has no attribute 'get'"
  end.

Definition low_printable_reason (printable_ratio : Q) : string :=
  "low_printable (ratio=" ++ format_f 2 printable_ratio ++ " < "
    ++ PRINTABLE_THR_str ++ ")".

Definition ngram_reason (sim : Q) : string :=
  "N-Gram anomaly" ++ newline ++ "Details: Similarity dropped to "
    ++ format_f 2 sim ++ " (threshold = " ++ JACC_THR_str ++ ")".

(** [prev_latest.get("checksum") and prev_latest["checksum"] != checksum] *)
Definition checksum_changed (prev_latest : option FileProfile) (checksum : string) : bool :=
  match prev_latest with
  | Some pl =>
      negb (String.eqb (p_checksum pl) EmptyString)
      && negb (String.eqb (p_checksum pl) checksum)
  | None => false
  end.

(** [(ent - prev_latest.get("entropy", 0)) > ENTROPY_THR] *)
Definition entropy_up (prev_latest : option FileProfile) (ent : Q) : bool :=
  Qltb ENTROPY_THR
       (ent - match prev_latest with Some pl => p_entropy pl | None => 0 end)%Q.

(** The [if / elif / elif] of lines 166-171: what is appended. *)
Definition classify (entropy_up low_printable : bool) : list string :=
  if entropy_up && low_printable then ["entropy+printable+checksum"]
  else if entropy_up then ["checksum+entropy"]
  else if low_printable then ["checksum+low_printable"]
  else [].

(** Lines 157-160: the reasons after the printable-ratio test. *)
Definition reasons_printable (printable_ratio : Q) : list string :=
  if Qltb printable_ratio PRINTABLE_THR
  then [low_printable_reason printable_ratio] else [].

(** Lines 162-171: the reasons after the checksum classification. *)
Definition reasons_checksum (prev_latest : option FileProfile)
    (printable_ratio ent : Q) (checksum : string) : list string :=
  let reasons := reasons_printable printable_ratio in
  if is_nil reasons && checksum_changed prev_latest checksum
  then reasons ++ classify (entropy_up prev_latest ent)
                           (Qltb printable_ratio PRINTABLE_THR)
  else reasons.

(** Lines 152-200, for content that passed the byte loop. [cap] is the
    value of [MAX_REASONS]. The first component is what was printed. *)
Definition assess (cap : nat) (prev_latest : option FileProfile) (mtime : Q)
    (timestamp : string) (raw : list byte) (freq : list (byte * Z))
    (printable_cnt : Z)
  : list string * outcome (list string * option FileProfile) :=
  let total := Z.of_nat (length raw) in
  let printable_ratio := (inject_Z printable_cnt / inject_Z total)%Q in
  let ent := entropy freq total in
  let checksum := blake3sum raw in
  let reasons0 := reasons_printable printable_ratio in
  let changed := checksum_changed prev_latest checksum in
  let reasons1 := reasons_checksum prev_latest printable_ratio ent checksum in
  if is_nil reasons0 && changed && (cap <=? length reasons1)%nat
  then ([], Return (reasons1, None))
  else
    let prev_ngram :=
      match prev_latest with Some pl => p_ngram pl | None => ∅ end in
    let has_prev_ngram := negb (bool_decide (prev_ngram = ∅)) in
    let prev_size :=
      match prev_latest with Some pl => p_size pl | None => total end in
    let shrink_ratio :=
      if (prev_size =? 0)%Z then 1%Q
      else (inject_Z total / inject_Z prev_size)%Q in
    let compare := is_nil reasons1 && changed && has_prev_ngram in
    let sim := jaccard prev_ngram (ngram_profile raw) in
    let printed :=
      if compare then [("[DEBUG] Jaccard similarity: " ++ format_f 3 sim)%string]
      else [] in
    let reasons2 :=
      if compare && Qltb sim JACC_THR then reasons1 ++ [ngram_reason sim]
      else reasons1 in
    let new_ng : option (gmap ngkey Z) :=
      if compare then Some (ngram_profile raw) else None in
    let new_ng : option (gmap ngkey Z) :=
      if negb has_prev_ngram || Qltb shrink_ratio (1 # 2)
      then Some (ngram_profile raw) else new_ng in
    (printed,
     Return (reasons2,
             Some {| p_checksum := checksum;
                     p_entropy := ent;
                     p_mtime := mtime;
                     p_timestamp := timestamp;
                     p_ngram :=
                       match new_ng with
                       | Some m => if bool_decide (m = ∅) then ∅ else m
                       | None => ∅
                       end;
                     p_size := total |})).

(** [analyze_file_single_pass], with the cap as an argument. *)
Definition analyze_with (cap : nat) (path : Path) (prev : option bval)
    (fs : FileView)
  : list string * outcome (list string * option FileProfile) :=
  match stat fs with
  | Raise e => ([], Raise e)
  | Return st =>
    let mtime := st_mtime st in
    match prev_latest_of prev with
    | Raise e => ([], Raise e)
    | Return prev_latest =>
      if match prev_latest with
         | Some pl => Qeq_bool (p_mtime pl) mtime
         | None => false
         end
      then ([], Return ([], None))
      else if negb (String.eqb (lower (suffix path)) ".txt")
      then ([], Return (["extension"], None))
      else
        match read_bytes fs with
        | Raise e =>
            ([("[ERROR] Failed to read " ++ name path ++ ": " ++ e)%string],
             Return ([("read_error:" ++ e)%string], None))
        | Return raw =>
            if is_nil raw then
              match stat_again fs with
              | Raise e => ([], Raise e)
              | Return st2 =>
                  ([], Return ([],
                     Some {| p_checksum := blake3sum [];
                             p_entropy := 0;
                             p_mtime := mtime;
                             p_timestamp := now_iso fs;
                             p_ngram := ∅;
                             p_size := st_size st2 |}))
              end
            else
              match scan_bytes raw [] 0 with
              | None => ([], Return (["non_ascii"], None))
              | Some (freq, printable_cnt) =>
                  assess cap prev_latest mtime (now_iso fs) raw freq printable_cnt
              end
        end
    end
  end.

Definition analyze_file_single_pass : Path -> option bval -> FileView ->
    list string * outcome (list string * option FileProfile) :=
  analyze_with MAX_REASONS.

End Analyzer.

(** ** Process state *)

(** [base] is the baseline dictionary shared by [main] and [Guard],
    [events_window] the deque of the guard, [last_alerts] the module-level
    table of [alert], [stdout] the lines printed so far. *)
Record State : Type := mkState {
  base : gmap string bval;
  events_window : list Q;
  last_alerts : gmap string (string * Q);
  stdout : list string
}.

Definition set_base (b : gmap string bval) (st : State) : State :=
  mkState b (events_window st) (last_alerts st) (stdout st).

Definition set_window (w : list Q) (st : State) : State :=
  mkState (base st) w (last_alerts st) (stdout st).

Definition print (lines : list string) (st : State) : State :=
  mkState (base st) (events_window st) (last_alerts st) (stdout st ++ lines).

(** ** alert (guard.py, lines 99-109) *)

Definition alert_line (path : Path) (reason_str : string) : string :=
  "[ALERT] " ++ str path ++ " -> " ++ reason_str.

(** [last_reason == reason_str and (now - last_time) < ALERT_COOLDOWN_SEC];
    a path without a record has [last_reason = None]. *)
Definition suppressed (record : option (string * Q)) (reason_str : string) (now : Q) : bool :=
  match record with
  | Some (last_reason, last_time) =>
      String.eqb last_reason reason_str
      && Qltb (now - last_time)%Q ALERT_COOLDOWN_SEC
  | None => false
  end.

(** [now] is the reading of [time.time()] inside the call. *)
Definition alert (path : Path) (reasons : list string) (now : Q) (st : State) : State :=
  let key := str path in
  let reason_str := String.concat ", " reasons in
  if suppressed (last_alerts st !! key) reason_str now then st
  else
    mkState (base st) (events_window st)
            (<[key := (reason_str, now)]> (last_alerts st))
            (stdout st ++ [alert_line path reason_str]).

(** ** Guard._too_many_events (guard.py, lines 215-233) *)

(** The [while] loop: drop entries from the left while the oldest one is
    more than [BURST_WINDOW_SEC] behind [now]. *)
Fixpoint evict (now : Q) (window : list Q) : list Q :=
  match window with
  | [] => []
  | t :: rest =>
      if Qltb BURST_WINDOW_SEC (now - t)%Q then evict now rest else window
  end.

Definition _too_many_events (now : Q) (window : list Q) : list Q * bool :=
  let window' := evict now (window ++ [now]) in
  (window', (BURST_THRESHOLD <=? length window')%nat).

(** ** Baseline update (guard.py, lines 254-257 and 309-312) *)

(** [entry = baseline.setdefault(key, {"history": [], "latest": {}})],
    [entry["history"].append(profile)], [entry["latest"] = profile].
    Under the key that holds the decoy names [setdefault] returns a list,
    which cannot be indexed by a string. *)
Definition record_profile (key : string) (profile : FileProfile)
    (b : gmap string bval) : outcome (gmap string bval) :=
  match b !! key with
  | None =>
      Return (<[key := BEntry {| history := [profile]; latest := profile |}]> b)
  | Some (BEntry e) =>
      Return (<[key := BEntry {| history := history e ++ [profile];
                                latest := profile |}]> b)
  | Some (BNames _) =>
      Raise "TypeError: list indices must be integers or slices, not str"
  end.

(** [if profile: ...]: the empty dictionary is [None]. *)
Definition record_if (key : string) (profile : option FileProfile)
    (b : gmap string bval) : outcome (gmap string bval) :=
  match profile with
  | Some pr => record_profile key pr b
  | None => Return b
  end.

(** [baseline.get("honeypots", [])] as the collection [in] searches: the
    list of names, or the keys of an entry stored under that key. *)
Definition honeypots (b : gmap string bval) : list string :=
  match b !! "honeypots" with
  | Some (BNames l) => l
  | Some (BEntry _) => ["history"; "latest"]
  | None => []
  end.

Definition is_honeypot (b : gmap string bval) (filename : string) : bool :=
  bool_decide (filename ∈ honeypots b).

Definition ignored (filename : string) : bool :=
  endswith "~" filename || startswith "." filename.

Definition burst_reason : string :=
  "burst>" ++ BURST_THRESHOLD_str ++ " in " ++ BURST_WINDOW_SEC_str ++ "s".

(** What one delivered notification observes: the two clock readings (in
    [_too_many_events] and in [alert]) and the file. *)
Record Tick : Type := mkTick {
  now_burst : Q;
  now_alert : Q;
  view : FileView
}.

Section Guard.

Variable log2 : Q -> Q.
Variable blake3_hexdigest : list byte -> string.
Variable format_f : nat -> Q -> string.

Let analyze := analyze_file_single_pass log2 blake3_hexdigest format_f.

(** Guard._process (guard.py, lines 235-257). The state is returned
    also when the call raises. *)
Definition _process (p : Path) (env : Tick) (st : State) : State * outcome unit :=
  if is_honeypot (base st) (name p) then
    (alert p ["honeypot_access"] (now_alert env) st, Return ())
  else if ignored (name p) then (st, Return ())
  else
    let '(window, burst) := _too_many_events (now_burst env) (events_window st) in
    let st := set_window window st in
    if burst then (alert "★" [burst_reason] (now_alert env) st, Return ())
    else
      match analyze p (base st !! str p) (view env) with
      | (printed, Raise e) => (print printed st, Raise e)
      | (printed, Return (reasons, profile)) =>
          let st := print printed st in
          let st := if is_nil reasons then st
                    else alert p reasons (now_alert env) st in
          match record_if (str p) profile (base st) with
          | Return b => (set_base b st, Return ())
          | Raise e => (st, Raise e)
          end
      end.

(** [on_created] and [on_modified]. *)
Definition on_event (is_directory : bool) (src_path : Path) (env : Tick)
    (st : State) : State * outcome unit :=
  if is_directory then (st, Return ()) else _process src_path env st.

(** One iteration of the seed scan of [main] (lines 306-314): the
    baseline is updated before the alert is raised. *)
Definition scan_file (file : Path) (env : Tick) (st : State) : State * outcome unit :=
  let key := str file in
  match analyze file (base st !! key) (view env) with
  | (printed, Raise e) => (print printed st, Raise e)
  | (printed, Return (reasons, profile)) =>
      let st := print printed st in
      match record_if key profile (base st) with
      | Raise e => (st, Raise e)
      | Return b =>
          let st := set_base b st in
          (if is_nil reasons then st else alert file reasons (now_alert env) st,
           Return ())
      end
  end.

(** The loop over [folder_path.rglob("*.txt")], with its two banners. *)
Fixpoint scan_files (files : list (Path * Tick)) (st : State) : State * outcome unit :=
  match files with
  | [] => (st, Return ())
  | (file, env) :: rest =>
      match scan_file file env st with
      | (st', Return _) => scan_files rest st'
      | (st', Raise e) => (st', Raise e)
      end
  end.

Definition initial_scan (files : list (Path * Tick)) (st : State) : State * outcome unit :=
  match scan_files files (print ["Running initial scan..."] st) with
  | (st', Return _) => (print ["Initial scan done."] st', Return ())
  | (st', Raise e) => (st', Raise e)
  end.

(** Lines 318-326 on the baseline: [present name] is [p.exists()] for
    the decoy of that name. *)
Definition place_honeypots (present : string -> bool) (st : State) : State :=
  match base st !! "honeypots" with
  | Some _ => st
  | None =>
      set_base (<["honeypots" :=
                   BNames (filter (fun n => present n = false) HONEYPOT_NAMES)]>
                  (base st))
               (print ["placing honeypots..."] st)
  end.

(** The operations of a run on the state: an iteration of the seed
    scan, the placing of the decoys, a delivered notification. A run
    stops at the first operation that raises. *)
Inductive op : Type :=
| OpScan (file : Path) (env : Tick)
| OpPlace (present : string -> bool)
| OpEvent (is_directory : bool) (src_path : Path) (env : Tick).

Definition exec (o : op) (st : State) : State * outcome unit :=
  match o with
  | OpScan file env => scan_file file env st
  | OpPlace present => (place_honeypots present st, Return ())
  | OpEvent is_directory src_path env => on_event is_directory src_path env st
  end.

Fixpoint run (ops : list op) (st : State) : State * outcome unit :=
  match ops with
  | [] => (st, Return ())
  | o :: rest =>
      match exec o st with
      | (st', Return _) => run rest st'
      | (st', Raise e) => (st', Raise e)
      end
  end.

End Guard.

(** ** Closed forms of the loops, used in the statements below *)

(** The test of line 147. *)
Definition printable (b : byte) : bool :=
  (ASCII_MIN <=? byte_val b)%Z && (byte_val b <=? ASCII_MAX)%Z.

Fixpoint printable_count (raw : list byte) : Z :=
  match raw with
  | [] => 0%Z
  | b :: rest => ((if printable b then 1 else 0) + printable_count rest)%Z
  end.

Definition histogram_from (freq : list (byte * Z)) (raw : list byte) : list (byte * Z) :=
  fold_left (fun f b => counter_incr b f) raw freq.

Definition histogram (raw : list byte) : list (byte * Z) := histogram_from [] raw.

Definition total_of (raw : list byte) : Z := Z.of_nat (length raw).

Definition printable_ratio_of (raw : list byte) : Q :=
  (inject_Z (printable_count raw) / inject_Z (total_of raw))%Q.

(** The modification time differs from the one of the previous profile,
    if there is one: the test of line 118 fails. *)
Definition mtime_changed (prev : option BaselineEntry) (mtime : Q) : Prop :=
  match prev with
  | Some e => ~ (p_mtime (latest e) == mtime)%Q
  | None => True
  end.

(** A run of the burst gate: the readings of the clock in successive
    calls of [_too_many_events], the final window and the answers. *)
Fixpoint admit_all (times : list Q) (window : list Q) : list Q * list bool :=
  match times with
  | [] => (window, [])
  | now :: rest =>
      let '(window', r) := _too_many_events now window in
      let '(final, rs) := admit_all rest window' in
      (final, r :: rs)
  end.

(** Entries that are not more than the window length behind [now]. *)
Definition recent (now t : Q) : bool := negb (Qltb BURST_WINDOW_SEC (now - t)%Q).

Fixpoint nondecreasing (times : list Q) : Prop :=
  match times with
  | [] => True
  | t :: rest => Forall (fun t' => (t <= t')%Q) rest /\ nondecreasing rest
  end.

(** The invariant of a baseline entry. *)
Definition entry_ok (e : BaselineEntry) : Prop :=
  last (history e) = Some (latest e).

Definition baseline_ok (b : gmap string bval) : Prop :=
  forall (k : string) (e : BaselineEntry), b !! k = Some (BEntry e) -> entry_ok e.

(** A baseline as the program builds it: a list only under the key of
    the decoy names. *)
Definition wf_base (b : gmap string bval) : Prop :=
  forall (k : string) (l : list string), b !! k = Some (BNames l) -> k = "honeypots".

(** Every entry of [b] is still in [b'], with a history that starts
    with the old one, and with the invariant if it had it. *)
Definition extends (b b' : gmap string bval) : Prop :=
  forall (k : string) (e : BaselineEntry),
    b !! k = Some (BEntry e) ->
    exists e', b' !! k = Some (BEntry e')
               /\ history e `prefix_of` history e'
               /\ (entry_ok e -> entry_ok e').

(** The history recorded under [k], empty for a path not yet known. *)
Definition history_of (b : gmap string bval) (k : string) : list FileProfile :=
  match b !! k with
  | Some (BEntry e) => history e
  | _ => []
  end.

(** Stand-ins for the library functions, to run the model on concrete
    inputs. *)
Definition sample_log2 (p : Q) : Q := (- 6)%Q.
Definition sample_hexdigest (data : list byte) : string := string_of_list_byte data.
Definition sample_format (digits : nat) (x : Q) : string := "0.30".

(** Sample data: a known file with one recorded profile, and three
    later states of its content. *)
Definition sample_path : Path := "/watched/notes.txt".

Definition sample_profile : FileProfile :=
  {| p_checksum := "C1"; p_entropy := 1; p_mtime := 100; p_timestamp := "t0";
     p_ngram := ∅; p_size := 10 |}.

Definition sample_entry : BaselineEntry :=
  {| history := [sample_profile]; latest := sample_profile |}.

Definition sample_base : gmap string bval :=
  {[ str sample_path := BEntry sample_entry ]}.

Definition sample_stat (mtime : Q) : outcome stat_result :=
  Return {| st_mtime := mtime; st_size := 10 |}.

Definition view_of (mtime : Q) (content : outcome (list byte)) : FileView :=
  {| stat := sample_stat mtime; read_bytes := content;
     stat_again := sample_stat mtime; now_iso := "t1" |}.

(** Three printable bytes and seven control bytes. *)
Definition mostly_control : list byte :=
  [x41; x42; x43; x01; x02; x03; x04; x05; x06; x07].

(** Ten printable bytes. *)
Definition all_printable : list byte :=
  [x41; x42; x43; x44; x45; x46; x47; x48; x49; x4a].

(** Printable bytes and one byte above 126. *)
Definition with_high_byte : list byte := [x41; x42; x43; xff].

Definition sample_state (b : gmap string bval) : State :=
  {| base := b; events_window := []; last_alerts := ∅; stdout := [] |}.

Definition sample_tick (fs : FileView) : Tick :=
  {| now_burst := 1000; now_alert := 1000; view := fs |}.

(** ** save_baseline (guard.py, lines 284-296) *)

Section Persistence.

(** [str(k)] for a [bytes] key. *)
Variable bytes_str : list byte -> string.

(** The key [str(k)] that [convert] writes for [k]. *)
Definition convert_key (k : ngkey) : ngkey :=
  inr (match k with
       | inl data => bytes_str data
       | inr s => s
       end).

(** [convert] on an n-gram dictionary. Keys that become equal are merged;
    which of their counts is kept depends on the insertion order, which
    the map does not record. *)
Definition convert_ngram (m : gmap ngkey Z) : gmap ngkey Z :=
  list_to_map (map (fun kv => (convert_key (fst kv), snd kv)) (map_to_list m)).

Definition convert_profile (pr : FileProfile) : FileProfile :=
  {| p_checksum := p_checksum pr;
     p_entropy := p_entropy pr;
     p_mtime := p_mtime pr;
     p_timestamp := p_timestamp pr;
     p_ngram := convert_ngram (p_ngram pr);
     p_size := p_size pr |}.

Definition convert_entry (e : BaselineEntry) : BaselineEntry :=
  {| history := map convert_profile (history e);
     latest := convert_profile (latest e) |}.

Definition convert_bval (v : bval) : bval :=
  match v with
  | BEntry e => BEntry (convert_entry e)
  | BNames l => BNames l
  end.

(** [convert(b)] on the baseline: the object that [json.dumps] receives. *)
Definition convert (b : gmap string bval) : gmap string bval :=
  convert_bval <$> b.

End Persistence.

(** ** text_mutator.py, corrupt_to_non_ascii (lines 35-40) *)

(** A Python [str] of this file is the list of its code points. *)
Definition byte_of_Z (z : Z) : byte := default x00 (Byte.of_N (Z.to_N z)).

(** [chr(c).encode('utf-8')] for a code point that is not a surrogate. *)
Definition utf8_char (c : Z) : list byte :=
  if (c <? 128)%Z then [byte_of_Z c]
  else if (c <? 2048)%Z then
    [byte_of_Z (192 + c / 64); byte_of_Z (128 + c mod 64)]
  else if (c <? 65536)%Z then
    [byte_of_Z (224 + c / 4096); byte_of_Z (128 + (c / 64) mod 64);
     byte_of_Z (128 + c mod 64)]
  else
    [byte_of_Z (240 + c / 262144); byte_of_Z (128 + (c / 4096) mod 64);
     byte_of_Z (128 + (c / 64) mod 64); byte_of_Z (128 + c mod 64)].

Definition encode_utf8 (text : list Z) : list byte := concat (map utf8_char text).

(** [''.join(chr(random.randint(128, 255)) for _ in range(300))], for the
    numbers [draws] that [random.randint] returns. *)
Definition corrupt_text (draws : list Z) : list Z := draws.

(** What [file.write_text(corrupt_text, encoding='utf-8')] leaves in the
    file. *)
Definition corrupt_to_non_ascii (draws : list Z) : list byte :=
  encode_utf8 (corrupt_text draws).

(** ** More closed forms *)

(** [freq[b]] on a [Counter]: 0 for a key that is not there. *)
Fixpoint counter_get (b : byte) (freq : list (byte * Z)) : Z :=
  match freq with
  | [] => 0%Z
  | (k, c) :: rest => if bool_decide (k = b) then c else counter_get b rest
  end.

(** The number of occurrences of [b] in [raw]. *)
Fixpoint occurrences (b : byte) (raw : list byte) : Z :=
  match raw with
  | [] => 0%Z
  | a :: rest => ((if bool_decide (a = b) then 1 else 0) + occurrences b rest)%Z
  end.

(** [data[i : i + NGRAM_N]] *)
Definition window_at (data : list byte) (i : nat) : list byte :=
  firstn NGRAM_N (skipn i data).

(** The reasons the analyzer can return. *)
Inductive reason_shape (format_f : nat -> Q -> string) : list string -> Prop :=
| shape_none : reason_shape format_f []
| shape_extension : reason_shape format_f ["extension"]
| shape_read_error (e : string) : reason_shape format_f [("read_error:" ++ e)%string]
| shape_non_ascii : reason_shape format_f ["non_ascii"]
| shape_low_printable (r : Q) :
    reason_shape format_f [low_printable_reason format_f r]
| shape_checksum_entropy : reason_shape format_f ["checksum+entropy"]
| shape_ngram (sim : Q) : reason_shape format_f [ngram_reason format_f sim].

(** A logarithm that is 0 at 1 and does not tell equal rationals apart. *)
Definition log2_like (log2 : Q -> Q) : Prop :=
  (log2 1 == 0)%Q /\ forall x y : Q, (x == y)%Q -> (log2 x == log2 y)%Q.

Definition zero_log2 (p : Q) : Q := 0%Q.

Definition sample_bytes_str (data : list byte) : string :=
  "b'" ++ string_of_list_byte data ++ "'".

Local Abbreviation sample_analyze :=
  (analyze_file_single_pass sample_log2 sample_hexdigest sample_format).
Local Abbreviation sample_process :=
  (_process sample_log2 sample_hexdigest sample_format).
Local Abbreviation sample_scan :=
  (scan_file sample_log2 sample_hexdigest sample_format).

(** * Facts *)

Lemma Qltb_lt (x y : Q) : Qltb x y = true <-> (x < y)%Q.
Proof.
  unfold Qltb. rewrite negb_true_iff. split.
  - intros H. apply Qnot_le_lt. intros Hle.
    apply Qle_bool_iff in Hle. congruence.
  - intros H. destruct (Qle_bool y x) eqn:E; [|reflexivity].
    apply Qle_bool_iff in E. exfalso. apply (Qlt_not_le _ _ H E).
Qed.

Lemma Qltb_ge (x y : Q) : Qltb x y = false <-> (y <= x)%Q.
Proof.
  unfold Qltb. rewrite negb_false_iff. apply Qle_bool_iff.
Qed.

Lemma is_nil_true {A : Type} (l : list A) : is_nil l = true <-> l = [].
Proof. destruct l; simpl; split; congruence. Qed.

(** The byte loop on content below 127: it never returns early, and it
    computes the histogram and the count of printable bytes. *)
Lemma scan_bytes_ascii (raw : list byte) :
  forall freq cnt,
    Forall (fun b => (byte_val b < 127)%Z) raw ->
    scan_bytes raw freq cnt
    = Some (histogram_from freq raw, (cnt + printable_count raw)%Z).
Proof.
  induction raw as [|b rest IH]; intros freq cnt Hall; simpl.
  - f_equal. f_equal. lia.
  - inversion Hall as [|? ? Hb Hrest]; subst.
    apply Z.ltb_lt in Hb. rewrite Hb. unfold printable.
    destruct ((ASCII_MIN <=? byte_val b)%Z && (byte_val b <=? ASCII_MAX)%Z);
      rewrite IH by assumption; unfold histogram_from; simpl;
      f_equal; f_equal; lia.
Qed.

(** The byte loop on content with a byte that is not below 127: early
    return. *)
Lemma scan_bytes_non_ascii (raw : list byte) (b : byte) :
  forall freq cnt,
    b ∈ raw -> (127 <= byte_val b)%Z -> scan_bytes raw freq cnt = None.
Proof.
  induction raw as [|a rest IH]; intros freq cnt Hin Hb.
  - inversion Hin.
  - simpl. destruct (byte_val a <? 127)%Z eqn:Ea; [|reflexivity].
    apply elem_of_cons in Hin as [->|Hin].
    + apply Z.ltb_lt in Ea. lia.
    + destruct ((ASCII_MIN <=? byte_val a)%Z && (byte_val a <=? ASCII_MAX)%Z);
        apply IH; assumption.
Qed.

(** A path with the monitored extension is not the key of the decoy
    names. *)
Lemma txt_not_honeypots_key (p : Path) :
  lower (suffix p) = ".txt" -> str p <> "honeypots".
Proof.
  intros H Heq. unfold str in Heq. subst p. vm_compute in H. discriminate.
Qed.

Section Facts.

Variable log2 : Q -> Q.
Variable blake3_hexdigest : list byte -> string.
Variable format_f : nat -> Q -> string.

Local Abbreviation analyzeN := (analyze_with log2 blake3_hexdigest format_f).
Local Abbreviation analyze :=
  (analyze_file_single_pass log2 blake3_hexdigest format_f).
Local Abbreviation assessN := (assess log2 blake3_hexdigest format_f).
Local Abbreviation rprintable := (reasons_printable format_f).
Local Abbreviation rchecksum := (reasons_checksum format_f).
Local Abbreviation process := (_process log2 blake3_hexdigest format_f).
Local Abbreviation scan := (scan_file log2 blake3_hexdigest format_f).

Lemma mtime_test_false (prev : option BaselineEntry) (mtime : Q) :
  mtime_changed prev mtime ->
  match latest <$> prev with
  | Some pl => Qeq_bool (p_mtime pl) mtime
  | None => false
  end = false.
Proof.
  destruct prev as [e|]; simpl; [|reflexivity].
  intros H. destruct (Qeq_bool (p_mtime (latest e)) mtime) eqn:E; [|reflexivity].
  apply Qeq_bool_iff in E. contradiction.
Qed.

Lemma prev_latest_of_entry (prev : option BaselineEntry) :
  prev_latest_of (BEntry <$> prev) = Return (latest <$> prev).
Proof. destruct prev; reflexivity. Qed.

(** A changed, readable, non-empty [.txt] file reaches the byte loop. *)
Lemma analyze_reaches_scan (cap : nat) (path : Path) (prev : option BaselineEntry)
    (fs : FileView) (s : stat_result) (raw : list byte) :
  stat fs = Return s ->
  mtime_changed prev (st_mtime s) ->
  lower (suffix path) = ".txt" ->
  read_bytes fs = Return raw ->
  raw <> [] ->
  analyzeN cap path (BEntry <$> prev) fs
  = match scan_bytes raw [] 0 with
    | None => ([], Return (["non_ascii"], None))
    | Some (freq, printable_cnt) =>
        assessN cap (latest <$> prev) (st_mtime s) (now_iso fs) raw freq printable_cnt
    end.
Proof.
  intros Hstat Hm Hsuf Hread Hne. unfold analyze_with.
  rewrite Hstat, prev_latest_of_entry, (mtime_test_false _ _ Hm), Hsuf, Hread.
  simpl. destruct raw; [contradiction|reflexivity].
Qed.

Lemma classify_length (eu lp : bool) : (length (classify eu lp) <= 1)%nat.
Proof. destruct eu, lp; simpl; lia. Qed.

Lemma reasons_printable_length (r : Q) : (length (rprintable r) <= 1)%nat.
Proof. unfold reasons_printable. destruct (Qltb r PRINTABLE_THR); simpl; lia. Qed.

Lemma reasons_checksum_length (pl : option FileProfile) (r ent : Q) (c : string) :
  (length (rchecksum pl r ent c) <= 1)%nat.
Proof.
  unfold reasons_checksum.
  destruct (is_nil (rprintable r)) eqn:E; simpl.
  - apply is_nil_true in E. rewrite E.
    destruct (checksum_changed pl c); simpl; [apply classify_length | lia].
  - apply reasons_printable_length.
Qed.

(** Lines 152-200 never return more than one reason, whatever the cap. *)
Lemma assess_at_most_one (cap : nat) (pl : option FileProfile) (mtime : Q)
    (ts : string) (raw : list byte) (freq : list (byte * Z)) (cnt : Z) :
  match snd (assessN cap pl mtime ts raw freq cnt) with
  | Return (reasons, _) => (length reasons <= 1)%nat
  | Raise _ => True
  end.
Proof.
  unfold assess.
  set (r := (inject_Z cnt / inject_Z (Z.of_nat (length raw)))%Q).
  set (ent := entropy log2 freq (Z.of_nat (length raw))).
  set (c := blake3sum blake3_hexdigest raw).
  pose proof (reasons_checksum_length pl r ent c) as Hlen.
  destruct (is_nil (rprintable r) && checksum_changed pl c
            && (cap <=? length (rchecksum pl r ent c))%nat);
    [exact Hlen|].
  cbv zeta. cbn [snd].
  destruct (is_nil (rchecksum pl r ent c)) eqn:E; cbn [andb].
  - apply is_nil_true in E. rewrite E.
    match goal with |- context [if ?b then _ else _] => destruct b end;
      simpl; lia.
  - exact Hlen.
Qed.

Lemma analyze_with_at_most_one (cap : nat) (path : Path) (prev : option bval)
    (fs : FileView) :
  match snd (analyzeN cap path prev fs) with
  | Return (reasons, _) => (length reasons <= 1)%nat
  | Raise _ => True
  end.
Proof.
  unfold analyze_with.
  destruct (stat fs) as [s|]; [|exact I].
  destruct (prev_latest_of prev) as [pl|]; [|exact I].
  match goal with |- context [if ?b then _ else _] => destruct b end;
    [simpl; lia|].
  destruct (negb (String.eqb (lower (suffix path)) ".txt")); [simpl; lia|].
  destruct (read_bytes fs) as [raw|e]; [|simpl; lia].
  destruct (is_nil raw).
  - destruct (stat_again fs); simpl; [lia|exact I].
  - destruct (scan_bytes raw [] 0) as [[freq cnt]|]; [|simpl; lia].
    apply assess_at_most_one.
Qed.


(** The first [path.stat()] is outside the [try]: its failure leaves
    the analyzer as an exception. *)
Lemma stat_failure_propagates (path : Path) (prev : option bval)
    (fs : FileView) (e : string) :
  stat fs = Raise e -> analyze path prev fs = ([], Raise e).
Proof.
  intros H. unfold analyze_file_single_pass, analyze_with. rewrite H.
  reflexivity.
Qed.

(** A profile is returned for monitored files only. *)
Lemma analyze_profile_txt (path : Path) (prev : option bval) (fs : FileView)
    (printed reasons : list string) (profile : FileProfile) :
  analyze path prev fs = (printed, Return (reasons, Some profile)) ->
  lower (suffix path) = ".txt".
Proof.
  unfold analyze_file_single_pass, analyze_with.
  destruct (stat fs) as [s|]; [|discriminate].
  destruct (prev_latest_of prev) as [pl|]; [|discriminate].
  match goal with |- context [if ?b then _ else _] => destruct b end;
    [discriminate|].
  destruct (String.eqb (lower (suffix path)) ".txt") eqn:E; [|discriminate].
  intros _. apply String.eqb_eq, E.
Qed.

(** ** The analyzer *)

(** C9. When the modification time of the file equals the one of the
    previous profile, [analyze] returns no reasons and no profile; the
    baseline is then left as it is, and a second call with the same
    metadata returns the same. *)
Theorem analyze_unchanged_mtime_is_noop (path : Path) (e : BaselineEntry)
    (b : gmap string bval) (fs1 fs2 : FileView) (s1 s2 : stat_result) :
  b !! str path = Some (BEntry e) ->
  stat fs1 = Return s1 ->
  stat fs2 = Return s2 ->
  (st_mtime s1 == p_mtime (latest e))%Q ->
  (st_mtime s2 == p_mtime (latest e))%Q ->
  analyze path (b !! str path) fs1 = ([], Return ([], None))
  /\ record_if (str path) None b = Return b
  /\ analyze path (b !! str path) fs2 = ([], Return ([], None)).
Proof.
  intros Hb H1 H2 Hm1 Hm2. rewrite Hb.
  assert (Hcall : forall fs s, stat fs = Return s ->
            (st_mtime s == p_mtime (latest e))%Q ->
            analyze path (Some (BEntry e)) fs = ([], Return ([], None))).
  { intros fs s Hs Hm. unfold analyze_file_single_pass, analyze_with.
    rewrite Hs. simpl.
    assert (Ht : Qeq_bool (p_mtime (latest e)) (st_mtime s) = true).
    { apply Qeq_bool_iff. symmetry. exact Hm. }
    rewrite Ht. reflexivity. }
  repeat split; eauto.
Qed.

(** C6. A changed [.txt] file whose content has a byte that is not
    below 127 yields exactly [non_ascii] and no profile, whatever the
    other bytes are. *)
Theorem non_ascii_wins (path : Path) (prev : option BaselineEntry)
    (fs : FileView) (s : stat_result) (raw : list byte) (b : byte) :
  stat fs = Return s ->
  mtime_changed prev (st_mtime s) ->
  lower (suffix path) = ".txt" ->
  read_bytes fs = Return raw ->
  b ∈ raw ->
  (127 <= byte_val b)%Z ->
  analyze path (BEntry <$> prev) fs = ([], Return (["non_ascii"], None)).
Proof.
  intros Hs Hm Hsuf Hr Hin Hb. unfold analyze_file_single_pass.
  rewrite (analyze_reaches_scan _ _ _ _ _ _ Hs Hm Hsuf Hr).
  - rewrite (scan_bytes_non_ascii raw b [] 0%Z Hin Hb). reflexivity.
  - intros ->. inversion Hin.
Qed.

(** C2. A call of the analyzer that returns, returns at most one
    reason: the low-printable reason, the checksum combinations and the
    n-gram anomaly never occur together. *)
Theorem at_most_one_reason (path : Path) (prev : option bval) (fs : FileView) :
  match snd (analyze path prev fs) with
  | Return (reasons, _) => (length reasons <= 1)%nat
  | Raise _ => True
  end.
Proof. apply analyze_with_at_most_one. Qed.

(** With a printable ratio below the threshold, lines 152-200 return
    the low-printable reason alone, with a profile. *)
Lemma assess_low_printable (cap : nat) (pl : option FileProfile) (mtime : Q)
    (ts : string) (raw : list byte) (freq : list (byte * Z)) (cnt : Z) :
  Qltb (inject_Z cnt / inject_Z (Z.of_nat (length raw)))%Q PRINTABLE_THR = true ->
  exists profile,
    assessN cap pl mtime ts raw freq cnt
    = ([], Return ([low_printable_reason format_f
                      (inject_Z cnt / inject_Z (Z.of_nat (length raw)))%Q],
                   Some profile)).
Proof.
  intros Hlow. unfold assess, reasons_checksum, reasons_printable.
  rewrite Hlow. cbn [is_nil andb]. eexists. reflexivity.
Qed.

(** C1. In the scenario of the claim (previous entropy 1, fingerprint
    changed, new entropy 6, printable ratio 3/10, all bytes below 127)
    the analyzer returns the low-printable reason, which is appended
    first and keeps the checksum classification from running; the
    reason list is not [entropy+printable+checksum]. *)
Theorem low_printable_preempts_classification (path : Path) (e : BaselineEntry)
    (fs : FileView) (s : stat_result) (raw : list byte) (c1 c2 : string) :
  stat fs = Return s ->
  mtime_changed (Some e) (st_mtime s) ->
  lower (suffix path) = ".txt" ->
  read_bytes fs = Return raw ->
  raw <> [] ->
  Forall (fun b => (byte_val b < 127)%Z) raw ->
  (p_entropy (latest e) == 1)%Q ->
  p_checksum (latest e) = c1 ->
  blake3sum blake3_hexdigest raw = c2 ->
  c1 <> c2 ->
  (entropy log2 (histogram raw) (total_of raw) == 6)%Q ->
  (printable_ratio_of raw == 3 # 10)%Q ->
  exists profile,
    analyze path (Some (BEntry e)) fs
    = ([], Return ([low_printable_reason format_f (printable_ratio_of raw)],
                   Some profile))
    /\ [low_printable_reason format_f (printable_ratio_of raw)]
       <> ["entropy+printable+checksum"].
Proof.
  intros Hs Hm Hsuf Hr Hne Hascii _ _ _ _ _ Hratio.
  unfold analyze_file_single_pass.
  rewrite (analyze_reaches_scan _ _ (Some e) _ _ _ Hs Hm Hsuf Hr Hne).
  rewrite (scan_bytes_ascii raw [] 0%Z Hascii).
  assert (Hlow : Qltb (printable_ratio_of raw) PRINTABLE_THR = true).
  { apply Qltb_lt. rewrite Hratio. reflexivity. }
  destruct (assess_low_printable MAX_REASONS (latest <$> Some e) (st_mtime s)
              (now_iso fs) raw (histogram_from [] raw)
              (0 + printable_count raw)%Z Hlow) as [profile Hp].
  exists profile. split; [exact Hp|].
  unfold low_printable_reason. simpl. intros H. discriminate H.
Qed.

End Facts.

(** ** The burst gate *)

Lemma recent_le (now t : Q) : recent now t = true <-> (now - t <= 5)%Q.
Proof.
  unfold recent. rewrite negb_true_iff, Qltb_ge. reflexivity.
Qed.

Lemma recent_old (now t : Q) : recent now t = false <-> (5 < now - t)%Q.
Proof.
  unfold recent. rewrite negb_false_iff, Qltb_lt. reflexivity.
Qed.

Lemma recent_self (now : Q) : recent now now = true.
Proof. apply recent_le. lra. Qed.

Lemma evict_cons (now t : Q) (rest : list Q) :
  evict now (t :: rest) = if recent now t then t :: rest else evict now rest.
Proof. unfold recent. simpl. destruct (Qltb BURST_WINDOW_SEC (now - t)); reflexivity. Qed.

(** Nothing is dropped when the oldest entry is recent. *)
Lemma evict_head_recent (now : Q) (window : list Q) :
  match window with
  | [] => True
  | t :: _ => recent now t = true
  end ->
  evict now window = window.
Proof.
  destruct window as [|t rest]; [reflexivity|].
  intros H. rewrite evict_cons, H. reflexivity.
Qed.

(** Everything but [now] is dropped when all earlier entries are old. *)
Lemma evict_all_old (now : Q) (window : list Q) :
  Forall (fun t => recent now t = false) window ->
  evict now (window ++ [now]) = [now].
Proof.
  induction window as [|t rest IH]; intros H.
  - simpl app. rewrite evict_cons, recent_self. reflexivity.
  - inversion H as [|? ? Ht Hrest]; subst.
    simpl app. rewrite evict_cons, Ht. apply IH. exact Hrest.
Qed.

Lemma nondecreasing_snoc (l : list Q) (x : Q) :
  nondecreasing (l ++ [x]) <-> nondecreasing l /\ Forall (fun t => (t <= x)%Q) l.
Proof.
  induction l as [|a l IH]; simpl.
  - split; [intros _; split; [exact I|constructor] | intros _; split; [constructor|exact I]].
  - rewrite IH, Forall_app. split.
    + intros [[Ha Hx] [Hl Hlx]]. repeat split; try assumption.
      constructor; [|assumption]. inversion Hx; assumption.
    + intros [[Ha Hl] Hx]. inversion Hx; subst.
      repeat split; try assumption. constructor; [assumption|constructor].
Qed.

Lemma nondecreasing_filter (f : Q -> bool) (l : list Q) :
  nondecreasing l -> nondecreasing (List.filter f l).
Proof.
  induction l as [|a l IH]; simpl; [trivial|].
  intros [Ha Hl]. destruct (f a); simpl; [split|]; auto.
  apply Forall_forall. intros x Hx.
  apply list_elem_of_In, List.filter_In in Hx as [Hx _].
  rewrite Forall_forall in Ha. apply Ha, list_elem_of_In, Hx.
Qed.

(** On a window in clock order the loop removes exactly the old entries. *)
Lemma evict_nondecreasing (now : Q) (window : list Q) :
  nondecreasing window -> evict now window = List.filter (recent now) window.
Proof.
  induction window as [|t rest IH]; [reflexivity|].
  intros [Ht Hrest]. rewrite evict_cons. simpl.
  destruct (recent now t) eqn:E; [|apply IH, Hrest].
  f_equal. symmetry. apply forallb_filter_id, forallb_forall.
  intros x Hx. apply recent_le. apply recent_le in E.
  rewrite Forall_forall in Ht. specialize (Ht x (proj2 (list_elem_of_In _ _) Hx)).
  lra.
Qed.

Lemma filter_filter_weaker (f g : Q -> bool) (l : list Q) :
  (forall x, f x = true -> g x = true) ->
  List.filter f (List.filter g l) = List.filter f l.
Proof.
  intros Hfg. induction l as [|a l IH]; [reflexivity|]. simpl.
  destruct (g a) eqn:Eg; simpl.
  - destruct (f a); [f_equal|]; exact IH.
  - destruct (f a) eqn:Ef; [|exact IH].
    apply Hfg in Ef. congruence.
Qed.

Lemma admit_all_snoc (times : list Q) (now : Q) :
  forall window,
    admit_all (times ++ [now]) window
    = let '(w1, rs) := admit_all times window in
      let '(w2, r) := _too_many_events now w1 in
      (w2, rs ++ [r]).
Proof.
  induction times as [|t times IH]; intros window; cbn [admit_all app].
  - destruct (_too_many_events now window). reflexivity.
  - destruct (_too_many_events t window) as [w' r'].
    rewrite IH. destruct (admit_all times w') as [w1 rs].
    destruct (_too_many_events now w1). reflexivity.
Qed.

(** A run on readings in clock order keeps exactly the readings that are
    recent with respect to the last one. *)
Lemma admit_all_window (times : list Q) (now : Q) :
  nondecreasing (times ++ [now]) ->
  fst (admit_all (times ++ [now]) []) = List.filter (recent now) (times ++ [now]).
Proof.
  revert now. induction times as [|t times IH] using rev_ind; intros now Hnd.
  - cbn [app admit_all]. unfold _too_many_events. cbn [app].
    rewrite evict_cons, recent_self. cbn [fst List.filter].
    rewrite recent_self. reflexivity.
  - rewrite admit_all_snoc.
    apply nondecreasing_snoc in Hnd as [Hnd Hle].
    specialize (IH t Hnd).
    destruct (admit_all (times ++ [t]) []) as [w1 rs]. simpl in IH. subst w1.
    unfold _too_many_events. cbn [fst].
    rewrite evict_nondecreasing.
    + rewrite (List.filter_app _ (List.filter _ _) [now]).
      rewrite (List.filter_app _ (times ++ [t]) [now]). f_equal.
      apply filter_filter_weaker. intros x Hx.
      apply recent_le. apply recent_le in Hx.
      apply Forall_app in Hle as [_ Ht]. inversion Ht; subst. lra.
    + apply nondecreasing_snoc. split.
      * apply nondecreasing_filter, Hnd.
      * apply Forall_forall. intros x Hx.
        apply list_elem_of_In, List.filter_In in Hx as [Hx _].
        rewrite Forall_forall in Hle. apply Hle, list_elem_of_In, Hx.
Qed.

(** A run on readings that all lie within one window length keeps every
    reading; the answers count the calls. *)
Lemma admit_all_within (t0 : Q) (times : list Q) :
  forall window,
    Forall (fun t => (t0 <= t <= t0 + 5)%Q) (window ++ times) ->
    admit_all times window
    = (window ++ times,
       map (fun k => (BURST_THRESHOLD <=? k)%nat)
           (seq (S (length window)) (length times))).
Proof.
  induction times as [|now times IH]; intros window Hall.
  - simpl. rewrite app_nil_r. reflexivity.
  - cbn [admit_all]. unfold _too_many_events.
    rewrite (evict_head_recent now (window ++ [now])).
    + replace (window ++ now :: times) with ((window ++ [now]) ++ times) in Hall
        by (rewrite <- app_assoc; reflexivity).
      rewrite (IH _ Hall).
      rewrite <- app_assoc. simpl. rewrite length_app. simpl.
      replace (length window + 1)%nat with (S (length window)) by lia.
      reflexivity.
    + rewrite Forall_forall in Hall.
      assert (Hnow : (t0 <= now <= t0 + 5)%Q).
      { apply Hall. apply elem_of_app. right. apply elem_of_cons. left. reflexivity. }
      destruct window as [|h w]; simpl; apply recent_le; [lra|].
      assert (Hh : (t0 <= h <= t0 + 5)%Q).
      { apply Hall. apply elem_of_cons. left. reflexivity. }
      lra.
Qed.

(** The window of a run holds only readings of the run. *)
Lemma evict_subset (now : Q) (window : list Q) (t : Q) :
  t ∈ evict now window -> t ∈ window.
Proof.
  induction window as [|a rest IH]; [trivial|].
  rewrite evict_cons. destruct (recent now a); [trivial|].
  intros H. apply elem_of_cons. right. apply IH, H.
Qed.

Lemma admit_all_subset (times : list Q) :
  forall window t, t ∈ fst (admit_all times window) -> t ∈ window ++ times.
Proof.
  induction times as [|now times IH]; intros window t; simpl.
  - rewrite app_nil_r. trivial.
  - destruct (admit_all times (evict now (window ++ [now]))) as [final rs] eqn:E.
    simpl. intros Ht.
    assert (Ht' : t ∈ evict now (window ++ [now]) ++ times).
    { apply IH. rewrite E. exact Ht. }
    apply elem_of_app in Ht' as [Ht'|Ht'].
    + apply evict_subset in Ht'. apply elem_of_app in Ht' as [Ht'|Ht'].
      * apply elem_of_app. left. exact Ht'.
      * apply elem_of_app. right. apply elem_of_cons. left.
        apply elem_of_cons in Ht' as [Ht'|Ht']; [exact Ht'|inversion Ht'].
    + apply elem_of_app. right. apply elem_of_cons. right. exact Ht'.
Qed.

(** What the loop drops is a prefix of old entries; what it keeps starts
    with a recent one. *)
Lemma evict_split (now : Q) (window : list Q) :
  exists dropped,
    window = dropped ++ evict now window
    /\ Forall (fun t => recent now t = false) dropped
    /\ match evict now window with
       | [] => True
       | t :: _ => recent now t = true
       end.
Proof.
  induction window as [|t rest (dropped & Heq & Hold & Hhead)].
  - exists []. repeat split. constructor.
  - rewrite evict_cons. destruct (recent now t) eqn:E.
    + exists []. repeat split; [constructor|exact E].
    + exists (t :: dropped). repeat split.
      * simpl. f_equal. exact Heq.
      * constructor; assumption.
      * exact Hhead.
Qed.

(** The reading that was just appended stays in the window. *)
Lemma evict_keeps_now (now : Q) (window : list Q) :
  last (evict now (window ++ [now])) = Some now.
Proof.
  induction window as [|t rest IH].
  - simpl app. rewrite evict_cons, recent_self. reflexivity.
  - simpl app. rewrite evict_cons. destruct (recent now t); [|exact IH].
    change (t :: rest ++ [now]) with ((t :: rest) ++ [now]). apply last_snoc.
Qed.

Lemma admit_all_last (times : list Q) (now : Q) (window : list Q) :
  last (snd (admit_all (times ++ [now]) window))
  = Some (BURST_THRESHOLD <=? length (fst (admit_all (times ++ [now]) window)))%nat.
Proof.
  rewrite admit_all_snoc.
  destruct (admit_all times window) as [w1 rs].
  unfold _too_many_events. cbn [fst snd]. apply last_snoc.
Qed.

(** C7. The burst gate. Each call appends the current reading, drops
    from the front the entries that are more than 5 seconds behind it up
    to the first one that is not, keeps the current reading, and answers
    true exactly when the window it leaves holds at least 10 entries. On
    a run from the empty window
    with readings in clock order, the window after a call holds exactly
    the readings of the run that are at most 5 seconds behind the current
    one, the current one included. Ten calls whose readings lie within 5
    seconds answer false nine times and then true; after nine calls, a
    call that comes 6 seconds or more after each of them answers false. *)
Theorem burst_gate_admit (times ten nine : list Q) (now t0 late : Q) :
  (forall window,
     (snd (_too_many_events now window) = true
      <-> (10 <= length (fst (_too_many_events now window)))%nat)
     /\ last (fst (_too_many_events now window)) = Some now
     /\ exists dropped,
          window ++ [now] = dropped ++ fst (_too_many_events now window)
          /\ Forall (fun t => recent now t = false) dropped
          /\ match fst (_too_many_events now window) with
             | [] => True
             | t :: _ => recent now t = true
             end)
  /\ (nondecreasing (times ++ [now]) ->
      fst (admit_all (times ++ [now]) [])
        = List.filter (recent now) (times ++ [now])
      /\ last (snd (admit_all (times ++ [now]) []))
        = Some (10 <=? length (List.filter (recent now) (times ++ [now])))%nat)
  /\ (length ten = 10%nat ->
      Forall (fun t => (t0 <= t <= t0 + 5)%Q) ten ->
      snd (admit_all ten []) = replicate 9 false ++ [true])
  /\ (length nine = 9%nat ->
      Forall (fun t => (t + 6 <= late)%Q) nine ->
      last (snd (admit_all (nine ++ [late]) [])) = Some false).
Proof.
  split; [|repeat split].
  - intros window. unfold _too_many_events. cbn [fst snd].
    split; [apply Nat.leb_le|]. split; [apply evict_keeps_now|].
    apply evict_split.
  - apply admit_all_window. assumption.
  - rewrite admit_all_last, admit_all_window by assumption. reflexivity.
  - intros Hlen Hall. rewrite (admit_all_within t0 ten [] Hall).
    cbn [snd length]. rewrite Hlen. reflexivity.
  - intros _ Hall. rewrite admit_all_snoc.
    pose proof (admit_all_subset nine [] ) as Hsub.
    destruct (admit_all nine []) as [w1 rs]. cbn [fst] in Hsub.
    unfold _too_many_events. rewrite evict_all_old.
    + cbn [snd]. apply last_snoc.
    + apply Forall_forall. intros t Ht. apply recent_old.
      apply Hsub in Ht. rewrite app_nil_l in Ht.
      rewrite Forall_forall in Hall. specialize (Hall t Ht). lra.
Qed.

(** ** The alert de-duplicator *)

Lemma alert_emits (p : Path) (reasons : list string) (now : Q) (st : State) :
  suppressed (last_alerts st !! str p) (String.concat ", " reasons) now = false ->
  alert p reasons now st
  = mkState (base st) (events_window st)
            (<[str p := (String.concat ", " reasons, now)]> (last_alerts st))
            (stdout st ++ [alert_line p (String.concat ", " reasons)]).
Proof. intros H. unfold alert. rewrite H. reflexivity. Qed.

Lemma alert_suppressed (p : Path) (reasons : list string) (now : Q) (st : State) :
  suppressed (last_alerts st !! str p) (String.concat ", " reasons) now = true ->
  alert p reasons now st = st.
Proof. intros H. unfold alert. rewrite H. reflexivity. Qed.

(** An alert touches neither the baseline nor the window, and no record
    but the one of its own path. *)
Lemma alert_base (p : Path) (reasons : list string) (now : Q) (st : State) :
  base (alert p reasons now st) = base st.
Proof. unfold alert. destruct (suppressed _ _ _); reflexivity. Qed.

Lemma alert_other_record (p q : Path) (reasons : list string) (now : Q) (st : State) :
  str q <> str p ->
  last_alerts (alert p reasons now st) !! str q = last_alerts st !! str q.
Proof.
  intros Hne. unfold alert. destruct (suppressed _ _ _); [reflexivity|].
  cbn [last_alerts]. apply lookup_insert_ne. congruence.
Qed.

(** C8. Alerts are de-duplicated per path. After an alert for [p] was
    emitted at [t1], the same alert within the cooldown is suppressed
    and changes nothing, so the two calls emit one line; the same alert
    once the cooldown has elapsed since [t1] emits the line again and
    moves the record to the new time. The record of any other path is
    not touched by these calls. *)
Theorem alert_cooldown_per_path (st : State) (p q : Path)
    (reasons : list string) (t1 t2 t3 : Q) :
  suppressed (last_alerts st !! str p) (String.concat ", " reasons) t1 = false ->
  (t2 - t1 < ALERT_COOLDOWN_SEC)%Q ->
  (ALERT_COOLDOWN_SEC <= t3 - t1)%Q ->
  str q <> str p ->
  let reason_str := String.concat ", " reasons in
  let st1 := alert p reasons t1 st in
  let st2 := alert p reasons t2 st1 in
  let st3 := alert p reasons t3 st2 in
  stdout st1 = stdout st ++ [alert_line p reason_str]
  /\ last_alerts st1 !! str p = Some (reason_str, t1)
  /\ st2 = st1
  /\ stdout st3 = stdout st ++ [alert_line p reason_str; alert_line p reason_str]
  /\ last_alerts st3 !! str p = Some (reason_str, t3)
  /\ last_alerts st3 !! str q = last_alerts st !! str q.
Proof.
  intros Hfirst Hin Hout Hne reason_str st1 st2 st3.
  assert (H1 : last_alerts st1 !! str p = Some (reason_str, t1)).
  { subst st1. rewrite alert_emits by exact Hfirst.
    cbn [last_alerts]. apply lookup_insert_eq. }
  assert (H2 : st2 = st1).
  { subst st2. apply alert_suppressed. rewrite H1. cbn [suppressed].
    rewrite String.eqb_refl. apply Qltb_lt. exact Hin. }
  assert (H3 : suppressed (last_alerts st2 !! str p) reason_str t3 = false).
  { rewrite H2, H1. cbn [suppressed]. rewrite String.eqb_refl.
    apply Qltb_ge. exact Hout. }
  assert (Hout1 : stdout st1 = stdout st ++ [alert_line p reason_str]).
  { subst st1. rewrite alert_emits by exact Hfirst. reflexivity. }
  repeat split; try assumption.
  - subst st3. rewrite alert_emits by exact H3. cbn [stdout].
    rewrite H2, Hout1, <- app_assoc. reflexivity.
  - subst st3. rewrite alert_emits by exact H3. cbn [last_alerts].
    apply lookup_insert_eq.
  - subst st3 st2 st1. rewrite !alert_other_record by exact Hne. reflexivity.
Qed.

(** ** The baseline *)

Lemma record_profile_returns (key : string) (profile : FileProfile)
    (b : gmap string bval) :
  (forall l, b !! key <> Some (BNames l)) ->
  record_profile key profile b
  = Return (<[key := BEntry {| history := history_of b key ++ [profile];
                               latest := profile |}]> b).
Proof.
  intros Hkey. unfold record_profile, history_of.
  destruct (b !! key) as [[e|l]|] eqn:E; [reflexivity| |reflexivity].
  exfalso. apply (Hkey l). reflexivity.
Qed.

Lemma record_profile_inv (key : string) (profile : FileProfile)
    (b b' : gmap string bval) :
  record_profile key profile b = Return b' ->
  b' = <[key := BEntry {| history := history_of b key ++ [profile];
                          latest := profile |}]> b.
Proof.
  unfold record_profile, history_of.
  destruct (b !! key) as [[e|l]|]; intros H; inversion H; reflexivity.
Qed.

Lemma record_profile_ok (key : string) (profile : FileProfile)
    (b b' : gmap string bval) :
  baseline_ok b -> record_profile key profile b = Return b' -> baseline_ok b'.
Proof.
  intros Hok H. apply record_profile_inv in H. subst b'.
  intros k e Hk. destruct (decide (key = k)) as [->|Hne].
  - rewrite lookup_insert_eq in Hk. inversion Hk; subst e.
    unfold entry_ok. cbn [history latest]. apply last_snoc.
  - rewrite lookup_insert_ne in Hk by exact Hne. apply (Hok k e Hk).
Qed.

Lemma record_profile_extends (key : string) (profile : FileProfile)
    (b b' : gmap string bval) :
  record_profile key profile b = Return b' -> extends b b'.
Proof.
  intros H. apply record_profile_inv in H. subst b'.
  intros k e Hk. destruct (decide (key = k)) as [->|Hne].
  - eexists. split; [apply lookup_insert_eq|]. split.
    + cbn [history]. unfold history_of. rewrite Hk. apply prefix_app_r. reflexivity.
    + intros _. unfold entry_ok. cbn [history latest]. apply last_snoc.
  - exists e. split; [|split; [reflexivity|trivial]].
    rewrite lookup_insert_ne by exact Hne. exact Hk.
Qed.

Lemma extends_refl (b : gmap string bval) : extends b b.
Proof. intros k e Hk. exists e. split; [exact Hk|split; [reflexivity|trivial]]. Qed.

Lemma extends_trans (b1 b2 b3 : gmap string bval) :
  extends b1 b2 -> extends b2 b3 -> extends b1 b3.
Proof.
  intros H12 H23 k e Hk.
  destruct (H12 k e Hk) as (e2 & Hk2 & Hp2 & Hok2).
  destruct (H23 k e2 Hk2) as (e3 & Hk3 & Hp3 & Hok3).
  exists e3. split; [exact Hk3|]. split; [etransitivity; eassumption|auto].
Qed.

Section GuardFacts.

Variable log2 : Q -> Q.
Variable blake3_hexdigest : list byte -> string.
Variable format_f : nat -> Q -> string.

Local Abbreviation analyze :=
  (analyze_file_single_pass log2 blake3_hexdigest format_f).
Local Abbreviation process := (_process log2 blake3_hexdigest format_f).
Local Abbreviation scan := (scan_file log2 blake3_hexdigest format_f).
Local Abbreviation execute := (exec log2 blake3_hexdigest format_f).
Local Abbreviation run_ops := (run log2 blake3_hexdigest format_f).

(** C5. The decoy test comes first: a notification for a file whose
    name is a registered decoy raises the [honeypot_access] alert, also
    when the name starts with a dot or ends with a tilde; the line is
    printed unless the de-duplicator holds it back. A name that is not
    a decoy and matches the ignore filter changes nothing. *)
Theorem honeypot_checked_before_ignore_filter (p : Path) (env : Tick) (st : State) :
  (name p ∈ honeypots (base st) ->
   process p env st = (alert p ["honeypot_access"] (now_alert env) st, Return ())
   /\ (suppressed (last_alerts st !! str p) "honeypot_access" (now_alert env) = false ->
       stdout (fst (process p env st))
       = stdout st ++ [alert_line p "honeypot_access"]))
  /\ (name p ∉ honeypots (base st) -> ignored (name p) = true ->
      process p env st = (st, Return ())).
Proof.
  split.
  - intros Hin.
    assert (Hp : process p env st
              = (alert p ["honeypot_access"] (now_alert env) st, Return ())).
    { unfold _process, is_honeypot. rewrite bool_decide_eq_true_2 by exact Hin.
      reflexivity. }
    split; [exact Hp|]. intros Hs. rewrite Hp. cbn [fst].
    rewrite alert_emits by exact Hs. reflexivity.
  - intros Hout Hign. unfold _process, is_honeypot.
    rewrite bool_decide_eq_false_2 by exact Hout. rewrite Hign. reflexivity.
Qed.

(** The baseline after a notification is the one before, or the one
    before with the profile returned by the analyzer recorded under the
    path. *)
Lemma process_base (p : Path) (env : Tick) (st : State) :
  base (fst (process p env st)) = base st
  \/ exists printed reasons profile,
       analyze p (base st !! str p) (view env)
         = (printed, Return (reasons, Some profile))
       /\ record_profile (str p) profile (base st)
          = Return (base (fst (process p env st))).
Proof.
  unfold _process.
  destruct (is_honeypot (base st) (name p)); [left; apply alert_base|].
  destruct (ignored (name p)); [left; reflexivity|].
  destruct (_too_many_events (now_burst env) (events_window st)) as [w burst].
  destruct burst; [left; cbn [fst]; rewrite alert_base; reflexivity|].
  cbn [base set_window].
  destruct (analyze p (base st !! str p) (view env)) as [printed [[reasons profile]|e]] eqn:E;
    [|left; reflexivity].
  set (st1 := print printed (set_window w st)).
  set (st2 := if is_nil reasons then st1 else alert p reasons (now_alert env) st1).
  assert (Hb : base st2 = base st).
  { subst st2. destruct (is_nil reasons); [reflexivity|]. rewrite alert_base. reflexivity. }
  destruct profile as [pr|]; cbn [record_if]; [|left; exact Hb].
  rewrite Hb.
  destruct (record_profile (str p) pr (base st)) as [b'|e] eqn:Er; [|left; exact Hb].
  right. exists printed, reasons, pr. split; [reflexivity|exact Er].
Qed.

(** On a baseline as the program builds it, a notification raises only
    when the analyzer does: recording the profile cannot fail. *)
Lemma process_raises_only_from_analyze (p : Path) (env : Tick) (st : State)
    (e : string) :
  wf_base (base st) ->
  snd (process p env st) = Raise e ->
  exists printed, analyze p (base st !! str p) (view env) = (printed, Raise e).
Proof.
  intros Hwf. unfold _process.
  destruct (is_honeypot (base st) (name p)); [discriminate|].
  destruct (ignored (name p)); [discriminate|].
  destruct (_too_many_events (now_burst env) (events_window st)) as [w burst].
  destruct burst; [discriminate|].
  cbn [base set_window].
  destruct (analyze p (base st !! str p) (view env)) as [printed [[reasons profile]|e']] eqn:E.
  - set (st1 := print printed (set_window w st)).
    set (st2 := if is_nil reasons then st1 else alert p reasons (now_alert env) st1).
    assert (Hb : base st2 = base st).
    { subst st2. destruct (is_nil reasons); [reflexivity|]. rewrite alert_base. reflexivity. }
    destruct profile as [pr|]; cbn [record_if]; [|discriminate].
    rewrite Hb, record_profile_returns; [discriminate|].
    intros l Hl. apply Hwf in Hl.
    apply analyze_profile_txt, txt_not_honeypots_key in E. contradiction.
  - cbn [snd]. intros H. inversion H. subst e'. exists printed. reflexivity.
Qed.

Lemma scan_base (file : Path) (env : Tick) (st : State) :
  base (fst (scan file env st)) = base st
  \/ exists printed reasons profile,
       analyze file (base st !! str file) (view env)
         = (printed, Return (reasons, Some profile))
       /\ record_profile (str file) profile (base st)
          = Return (base (fst (scan file env st))).
Proof.
  unfold scan_file.
  destruct (analyze file (base st !! str file) (view env)) as [printed [[reasons profile]|e]] eqn:E;
    [|left; reflexivity].
  destruct profile as [pr|]; cbn [record_if base print].
  - destruct (record_profile (str file) pr (base st)) as [b'|e] eqn:Er;
      [|left; reflexivity].
    right. exists printed, reasons, pr. split; [reflexivity|].
    rewrite Er. cbn [fst]. f_equal.
    destruct (is_nil reasons); [reflexivity|]. rewrite alert_base. reflexivity.
  - left. cbn [fst].
    destruct (is_nil reasons); [reflexivity|]. rewrite alert_base. reflexivity.
Qed.

Lemma place_honeypots_extends (present : string -> bool) (st : State) :
  extends (base st) (base (place_honeypots present st)).
Proof.
  unfold place_honeypots.
  destruct (base st !! "honeypots") eqn:E; [apply extends_refl|].
  cbn [base set_base]. intros k e Hk. exists e.
  split; [|split; [reflexivity|trivial]].
  rewrite lookup_insert_ne; [exact Hk|]. intros <-. congruence.
Qed.

Lemma place_honeypots_ok (present : string -> bool) (st : State) :
  baseline_ok (base st) -> baseline_ok (base (place_honeypots present st)).
Proof.
  intros Hok. unfold place_honeypots.
  destruct (base st !! "honeypots") eqn:E; [exact Hok|].
  cbn [base set_base]. intros k e Hk.
  destruct (decide ("honeypots" = k)) as [<-|Hne].
  - rewrite lookup_insert_eq in Hk. discriminate Hk.
  - rewrite lookup_insert_ne in Hk by exact Hne. apply (Hok k e Hk).
Qed.

(** The baseline after an operation: unchanged, decoy names added, or a
    profile recorded. *)
Lemma exec_base (o : op) (st : State) :
  base (fst (execute o st)) = base st
  \/ (exists present, base (fst (execute o st)) = base (place_honeypots present st))
  \/ (exists key profile,
        record_profile key profile (base st) = Return (base (fst (execute o st)))).
Proof.
  destruct o as [file env|present|is_directory src_path env]; cbn [exec].
  - destruct (scan_base file env st) as [H|(pr & rs & pf & Ha & Hr)];
      [left; exact H|right; right; eauto].
  - right. left. exists present. reflexivity.
  - unfold on_event. destruct is_directory; [left; reflexivity|].
    destruct (process_base src_path env st) as [H|(pr & rs & pf & Ha & Hr)];
      [left; exact H|right; right; eauto].
Qed.

Lemma exec_extends (o : op) (st : State) :
  extends (base st) (base (fst (execute o st))).
Proof.
  destruct (exec_base o st) as [->|[[present ->]|(key & profile & Hr)]].
  - apply extends_refl.
  - apply place_honeypots_extends.
  - eapply record_profile_extends, Hr.
Qed.

Lemma exec_ok (o : op) (st : State) :
  baseline_ok (base st) -> baseline_ok (base (fst (execute o st))).
Proof.
  intros Hok.
  destruct (exec_base o st) as [->|[[present ->]|(key & profile & Hr)]].
  - exact Hok.
  - apply place_honeypots_ok, Hok.
  - eapply record_profile_ok; eassumption.
Qed.

Lemma run_extends (ops : list op) :
  forall st, extends (base st) (base (fst (run_ops ops st))).
Proof.
  induction ops as [|o rest IH]; intros st; cbn [run].
  - apply extends_refl.
  - pose proof (exec_extends o st) as Hext.
    destruct (execute o st) as [st1 [[]|e]]; cbn [fst] in *.
    + eapply extends_trans; [exact Hext|apply IH].
    + exact Hext.
Qed.

Lemma run_ok (ops : list op) :
  forall st,
    baseline_ok (base st) -> baseline_ok (base (fst (run_ops ops st))).
Proof.
  induction ops as [|o rest IH]; intros st Hok; cbn [run].
  - exact Hok.
  - pose proof (exec_ok o st Hok) as Hok1.
    destruct (execute o st) as [st1 [[]|e]]; cbn [fst] in *.
    + apply IH, Hok1.
    + exact Hok1.
Qed.

(** C10. Recording a profile under a path (a key that does not hold
    the decoy names) succeeds and leaves an entry whose [latest] is the
    profile and is the last element of its history, whose history is
    the old one with the profile appended, all other keys as they were.
    The baseline after a notification or after an iteration of the seed
    scan is the one before or the result of recording the profile the
    analyzer returned. Along every run every entry stays in the
    baseline, keeps its old history as a prefix, and keeps the invariant
    "[latest] is the last element of [history]" if it had it; a baseline
    whose entries all have the invariant stays so. *)
Theorem baseline_history_append_only (b : gmap string bval) (key : string)
    (profile : FileProfile) (p : Path) (env : Tick) (ops : list op) (st : State) :
  (forall l, b !! key <> Some (BNames l)) ->
  (exists b' e',
      record_profile key profile b = Return b'
      /\ b' !! key = Some (BEntry e')
      /\ latest e' = profile
      /\ last (history e') = Some (latest e')
      /\ history e' = history_of b key ++ [profile]
      /\ (forall k, k <> key -> b' !! k = b !! k))
  /\ (base (fst (process p env st)) = base st
      \/ exists printed reasons pr,
           analyze p (base st !! str p) (view env)
             = (printed, Return (reasons, Some pr))
           /\ record_profile (str p) pr (base st)
              = Return (base (fst (process p env st))))
  /\ (base (fst (scan p env st)) = base st
      \/ exists printed reasons pr,
           analyze p (base st !! str p) (view env)
             = (printed, Return (reasons, Some pr))
           /\ record_profile (str p) pr (base st)
              = Return (base (fst (scan p env st))))
  /\ extends (base st) (base (fst (run_ops ops st)))
  /\ (baseline_ok (base st) -> baseline_ok (base (fst (run_ops ops st)))).
Proof.
  intros Hkey. split; [|split; [|split; [|split]]].
  - eexists. eexists. split; [apply record_profile_returns, Hkey|].
    split; [apply lookup_insert_eq|]. cbn [history latest].
    repeat split; [apply last_snoc|].
    intros k Hne. apply lookup_insert_ne. congruence.
  - apply process_base.
  - apply scan_base.
  - apply run_extends.
  - apply run_ok.
Qed.

End GuardFacts.

(** * The theorems on concrete inputs *)

Lemma sample_base_ok : baseline_ok sample_base.
Proof.
  intros k e H. unfold sample_base in H.
  apply lookup_singleton_Some in H as [_ H].
  inversion H. reflexivity.
Qed.

Lemma analyze_unchanged_mtime_is_noop_witness :
  sample_analyze sample_path (sample_base !! str sample_path)
     (view_of 100 (Return all_printable)) = ([], Return ([], None))
  /\ record_if (str sample_path) None sample_base = Return sample_base
  /\ sample_analyze sample_path (sample_base !! str sample_path)
       (view_of 100 (Return mostly_control)) = ([], Return ([], None)).
Proof.
  apply (analyze_unchanged_mtime_is_noop sample_log2 sample_hexdigest sample_format
           sample_path sample_entry sample_base
           (view_of 100 (Return all_printable))
           (view_of 100 (Return mostly_control))
           {| st_mtime := 100; st_size := 10 |}
           {| st_mtime := 100; st_size := 10 |});
    reflexivity.
Defined.

Lemma non_ascii_wins_witness :
  sample_analyze sample_path (Some (BEntry sample_entry))
     (view_of 200 (Return with_high_byte))
  = ([], Return (["non_ascii"], None)).
Proof.
  apply (non_ascii_wins sample_log2 sample_hexdigest sample_format
           sample_path (Some sample_entry)
           (view_of 200 (Return with_high_byte))
           {| st_mtime := 200; st_size := 10 |} with_high_byte xff).
  - reflexivity.
  - simpl. intros H. vm_compute in H. discriminate H.
  - reflexivity.
  - reflexivity.
  - unfold with_high_byte. do 3 apply list_elem_of_further. apply list_elem_of_here.
  - vm_compute. discriminate.
Defined.

Lemma low_printable_preempts_classification_witness :
  exists profile,
    sample_analyze sample_path (Some (BEntry sample_entry))
       (view_of 200 (Return mostly_control))
    = ([], Return (["low_printable (ratio=0.30 < 0.7)"], Some profile))
    /\ ["low_printable (ratio=0.30 < 0.7)"] <> ["entropy+printable+checksum"].
Proof.
  apply (low_printable_preempts_classification sample_log2 sample_hexdigest
           sample_format sample_path sample_entry
           (view_of 200 (Return mostly_control))
           {| st_mtime := 200; st_size := 10 |} mostly_control
           "C1" (sample_hexdigest mostly_control)).
  - reflexivity.
  - simpl. intros H. vm_compute in H. discriminate H.
  - reflexivity.
  - reflexivity.
  - discriminate.
  - repeat constructor.
  - reflexivity.
  - reflexivity.
  - reflexivity.
  - vm_compute. discriminate.
  - vm_compute. reflexivity.
  - vm_compute. reflexivity.
Defined.


Lemma burst_gate_admit_witness :
  fst (admit_all [0; 1; 2; 7]%Q []) = [2; 7]%Q
  /\ snd (admit_all [0; 1 # 2; 1; 3 # 2; 2; 5 # 2; 3; 7 # 2; 4; 9 # 2]%Q [])
     = [false; false; false; false; false; false; false; false; false; true]
  /\ last (snd (admit_all [0; 1 # 2; 1; 3 # 2; 2; 5 # 2; 3; 7 # 2; 4; 10]%Q []))
     = Some false.
Proof.
  destruct (burst_gate_admit [0; 1; 2]%Q
              [0; 1 # 2; 1; 3 # 2; 2; 5 # 2; 3; 7 # 2; 4; 9 # 2]%Q
              [0; 1 # 2; 1; 3 # 2; 2; 5 # 2; 3; 7 # 2; 4]%Q
              7%Q 0%Q 10%Q) as (_ & H2 & H3 & H4).
  split; [|split].
  - apply H2. simpl. repeat split; repeat constructor; vm_compute; discriminate.
  - apply H3; [reflexivity|]. repeat constructor; vm_compute; discriminate.
  - apply H4; [reflexivity|]. repeat constructor; vm_compute; discriminate.
Defined.

Lemma alert_cooldown_per_path_witness :
  let st1 := alert sample_path ["non_ascii"] 100 (sample_state ∅) in
  let st2 := alert sample_path ["non_ascii"] 102 st1 in
  let st3 := alert sample_path ["non_ascii"] 106 st2 in
  stdout st1 = ["[ALERT] /watched/notes.txt -> non_ascii"]
  /\ last_alerts st1 !! str sample_path = Some ("non_ascii", 100%Q)
  /\ st2 = st1
  /\ stdout st3 = ["[ALERT] /watched/notes.txt -> non_ascii";
                   "[ALERT] /watched/notes.txt -> non_ascii"]
  /\ last_alerts st3 !! str sample_path = Some ("non_ascii", 106%Q)
  /\ last_alerts st3 !! "/watched/todo.txt" = None.
Proof.
  apply (alert_cooldown_per_path (sample_state ∅) sample_path "/watched/todo.txt"
           ["non_ascii"] 100 102 106).
  - reflexivity.
  - vm_compute. reflexivity.
  - vm_compute. discriminate.
  - vm_compute. discriminate.
Defined.

Lemma honeypot_checked_before_ignore_filter_witness :
  let st := sample_state {[ "honeypots" := BNames [".honey1.txt"; "honey2.txt"] ]} in
  let env := sample_tick (view_of 200 (Return all_printable)) in
  ignored (name "/watched/.honey1.txt") = true
  /\ sample_process "/watched/.honey1.txt" env st
     = (alert "/watched/.honey1.txt" ["honeypot_access"] 1000 st, Return ())
  /\ stdout (fst (sample_process "/watched/.honey1.txt" env st))
     = ["[ALERT] /watched/.honey1.txt -> honeypot_access"]
  /\ sample_process "/watched/.hidden.txt" env st = (st, Return ()).
Proof.
  intros st env.
  destruct (honeypot_checked_before_ignore_filter sample_log2 sample_hexdigest
              sample_format "/watched/.honey1.txt" env st) as [Hdecoy _].
  destruct (honeypot_checked_before_ignore_filter sample_log2 sample_hexdigest
              sample_format "/watched/.hidden.txt" env st) as [_ Hignored].
  destruct Hdecoy as [Hp Hout].
  - apply list_elem_of_here.
  - split; [reflexivity|]. split; [exact Hp|]. split.
    + apply Hout. reflexivity.
    + apply Hignored; [|reflexivity].
      intros Hin. vm_compute in Hin.
      repeat (apply elem_of_cons in Hin as [Hin|Hin]; [discriminate Hin|]).
      inversion Hin.
Defined.

Lemma baseline_history_append_only_witness :
  let st := sample_state sample_base in
  let fs := view_of 200 (Return all_printable) in
  let ops := [OpScan sample_path (sample_tick fs);
              OpPlace (fun _ => false);
              OpEvent false "/watched/todo.txt" (sample_tick fs)] in
  (exists b' e',
      record_profile (str sample_path) sample_profile sample_base = Return b'
      /\ b' !! str sample_path = Some (BEntry e')
      /\ latest e' = sample_profile
      /\ last (history e') = Some (latest e')
      /\ history e' = [sample_profile; sample_profile]
      /\ (forall k, k <> str sample_path -> b' !! k = sample_base !! k))
  /\ extends sample_base
       (base (fst (run sample_log2 sample_hexdigest sample_format ops st)))
  /\ baseline_ok (base (fst (run sample_log2 sample_hexdigest sample_format ops st))).
Proof.
  intros st fs ops.
  destruct (baseline_history_append_only sample_log2 sample_hexdigest sample_format
              sample_base (str sample_path) sample_profile sample_path
              (sample_tick fs) ops st) as (H1 & _ & _ & H4 & H5).
  - intros l H. vm_compute in H. discriminate H.
  - split; [exact H1|]. split; [exact H4|]. apply H5. exact sample_base_ok.
Defined.

(** * Further properties of the code *)

#[local] Set Warnings "-clear-no-such-hyp".

(** ** jaccard and ngram_profile *)

Lemma ratio_of_nat_bounds (n d : nat) :
  (n <= d)%nat -> (0 < d)%nat ->
  (0 <= inject_Z (Z.of_nat n) / inject_Z (Z.of_nat d) <= 1)%Q.
Proof.
  intros Hnd Hd.
  assert (Hpos : (0 < inject_Z (Z.of_nat d))%Q).
  { change 0%Q with (inject_Z 0). rewrite <- Zlt_Qlt. lia. }
  split.
  - apply Qle_shift_div_l; [exact Hpos|]. rewrite Qmult_0_l.
    change 0%Q with (inject_Z 0). rewrite <- Zle_Qle. lia.
  - apply Qle_shift_div_r; [exact Hpos|]. rewrite Qmult_1_l.
    rewrite <- Zle_Qle. lia.
Qed.

Lemma inject_nat_eq (a b : nat) :
  (inject_Z (Z.of_nat a) == inject_Z (Z.of_nat b))%Q -> a = b.
Proof. unfold Qeq. simpl. lia. Qed.

Lemma ratio_of_nat_cancel (n d : nat) :
  (0 < d)%nat ->
  (inject_Z (Z.of_nat n) / inject_Z (Z.of_nat d) * inject_Z (Z.of_nat d)
   == inject_Z (Z.of_nat n))%Q.
Proof.
  intros Hd. field. intros H. apply (inject_nat_eq d 0) in H. lia.
Qed.

Lemma ratio_of_nat_zero (n d : nat) :
  (0 < d)%nat ->
  (inject_Z (Z.of_nat n) / inject_Z (Z.of_nat d) == 0)%Q <-> n = 0%nat.
Proof.
  intros Hd. split.
  - intros H. pose proof (ratio_of_nat_cancel n d Hd) as Hc.
    rewrite H, Qmult_0_l in Hc. symmetry in Hc.
    apply (inject_nat_eq n 0) in Hc. exact Hc.
  - intros ->. simpl. unfold Qdiv. apply Qmult_0_l.
Qed.

Lemma ratio_of_nat_one (n d : nat) :
  (0 < d)%nat ->
  (inject_Z (Z.of_nat n) / inject_Z (Z.of_nat d) == 1)%Q <-> n = d.
Proof.
  intros Hd. pose proof (ratio_of_nat_cancel n d Hd) as Hc. split.
  - intros H. rewrite H, Qmult_1_l in Hc. symmetry in Hc.
    apply inject_nat_eq in Hc. exact Hc.
  - intros ->. field. intros H. apply (inject_nat_eq d 0) in H. lia.
Qed.

Lemma jaccard_denominator_pos (u : nat) :
  (0 < (if (u =? 0)%nat then 1 else u))%nat.
Proof. destruct u; simpl; lia. Qed.

(** X1. The similarity of a profile with itself is 1, except for the
    empty profile, where it is 0. *)
Theorem jaccard_self (a : gmap ngkey Z) :
  (jaccard a a == if bool_decide (a = ∅) then 0 else 1)%Q.
Proof.
  unfold jaccard.
  replace (dom a ∩ dom a) with (dom a : gset ngkey) by set_solver.
  replace (dom a ∪ dom a) with (dom a : gset ngkey) by set_solver.
  destruct (bool_decide (a = ∅)) eqn:E.
  - apply bool_decide_eq_true in E. subst a. rewrite dom_empty_L, size_empty.
    reflexivity.
  - apply bool_decide_eq_false in E.
    assert (Hsz : size (dom a : gset ngkey) <> 0%nat).
    { intros H. apply size_empty_inv in H. apply leibniz_equiv in H.
      apply dom_empty_iff_L in H. contradiction. }
    destruct (size (dom a : gset ngkey)) as [|n] eqn:Es; [contradiction|].
    cbn [Nat.eqb]. apply ratio_of_nat_one; [lia|reflexivity].
Qed.

(** X2. The similarity lies between 0 and 1 and does not depend on the
    order of its arguments; it is 0 exactly when the two profiles share no
    key, and 1 exactly when they have the same keys and at least one. *)
Theorem jaccard_range (a b : gmap ngkey Z) :
  (0 <= jaccard a b <= 1)%Q
  /\ jaccard a b = jaccard b a
  /\ ((jaccard a b == 0)%Q <-> dom a ∩ dom b = (∅ : gset ngkey))
  /\ ((jaccard a b == 1)%Q <-> dom a = (dom b : gset ngkey) /\ a <> ∅).
Proof.
  unfold jaccard.
  set (sa := dom a : gset ngkey). set (sb := dom b : gset ngkey).
  assert (Hle : (size (sa ∩ sb) <= size (sa ∪ sb))%nat).
  { apply subseteq_size. set_solver. }
  pose proof (jaccard_denominator_pos (size (sa ∪ sb))) as Hpos.
  repeat split.
  - apply ratio_of_nat_bounds; [|exact Hpos].
    destruct (size (sa ∪ sb)); simpl; lia.
  - apply ratio_of_nat_bounds; [|exact Hpos].
    destruct (size (sa ∪ sb)); simpl; lia.
  - replace (sb ∩ sa) with (sa ∩ sb) by set_solver.
    replace (sb ∪ sa) with (sa ∪ sb) by set_solver. reflexivity.
  - intros H. apply ratio_of_nat_zero in H; [|exact Hpos].
    apply leibniz_equiv, size_empty_inv, H.
  - intros H. apply ratio_of_nat_zero; [exact Hpos|].
    rewrite H. apply size_empty.
  - apply ratio_of_nat_one in H; [|exact Hpos].
    destruct (size (sa ∪ sb)) as [|n] eqn:Eu; simpl in H; [lia|].
    assert (Heq : sa ∩ sb = sa ∪ sb).
    { apply leibniz_equiv. apply set_subseteq_size_equiv; [set_solver|lia]. }
    set_solver.
  - apply ratio_of_nat_one in H; [|exact Hpos].
    destruct (size (sa ∪ sb)) as [|n] eqn:Eu; simpl in H; [lia|].
    intros Ha.
    assert (Hsa : sa = ∅) by (subst sa; rewrite Ha; apply dom_empty_L).
    rewrite Hsa in H. replace (∅ ∩ sb) with (∅ : gset ngkey) in H by set_solver.
    rewrite size_empty in H. discriminate.
  - intros [Hd Hne]. apply ratio_of_nat_one; [exact Hpos|].
    fold sa sb in Hd. rewrite Hd.
    replace (sb ∩ sb) with sb by set_solver.
    replace (sb ∪ sb) with sb by set_solver.
    destruct (size sb) as [|n] eqn:Es; [|reflexivity].
    exfalso. apply Hne. apply dom_empty_iff_L. fold sa. rewrite Hd.
    apply leibniz_equiv, size_empty_inv, Es.
Qed.

Lemma range_step_one (stop : Z) :
  range_step stop 1 = seq 0 (Z.to_nat stop).
Proof.
  unfold range_step. destruct (stop <=? 0)%Z eqn:E.
  - apply Z.leb_le in E. replace (Z.to_nat stop) with 0%nat by lia. reflexivity.
  - replace ((stop + Z.of_nat 1 - 1) / Z.of_nat 1)%Z with stop
      by (rewrite Z.div_1_r; lia).
    rewrite <- (map_id (seq 0 (Z.to_nat stop))) at 2.
    apply map_ext. intros k. lia.
Qed.

Lemma dom_ngram_fold (data : list byte) (n : nat) (indices : list nat) :
  forall m : gmap ngkey Z,
    dom (fold_left (fun m i => counter_add (inl (firstn n (skipn i data))) m)
                   indices m)
    = (list_to_set (map (fun i => inl (firstn n (skipn i data))) indices)
       ∪ dom m : gset ngkey).
Proof.
  induction indices as [|i rest IH]; intros m; simpl.
  - set_solver.
  - rewrite IH. unfold counter_add. rewrite dom_insert_L. set_solver.
Qed.

(** X3. The keys of an n-gram profile are exactly the windows of three
    consecutive bytes of the data, as [bytes] keys; data shorter than
    three bytes has the empty profile. *)
Theorem ngram_profile_keys (data : list byte) (k : ngkey) :
  (k ∈ (dom (ngram_profile data) : gset ngkey)
   <-> exists i : nat, (i + 3 <= length data)%nat /\ k = inl (window_at data i))
  /\ ((length data < 3)%nat <-> ngram_profile data = ∅).
Proof.
  assert (Hdom : forall k' : ngkey,
            k' ∈ (dom (ngram_profile data) : gset ngkey)
            <-> exists i : nat, (i + 3 <= length data)%nat
                                /\ k' = inl (window_at data i)).
  { intros k'. unfold ngram_profile, ngram_profile_with, STEP.
    rewrite dom_ngram_fold, range_step_one, dom_empty_L.
    rewrite elem_of_union, elem_of_list_to_set, list_elem_of_In, in_map_iff.
    unfold window_at, NGRAM_N. split.
    - intros [(i & Hk & Hi)|Hempty]; [|set_solver].
      apply in_seq in Hi. exists i. split; [lia|congruence].
    - intros (i & Hi & ->). left. exists i. split; [reflexivity|].
      apply in_seq. lia. }
  split; [apply Hdom|]. split.
  - intros Hshort. apply dom_empty_iff_L. apply leibniz_equiv.
    intros k'. rewrite Hdom. split; [|set_solver].
    intros (i & Hi & _). lia.
  - intros Hempty. destruct (decide (length data < 3)%nat) as [|Hlong]; [assumption|].
    exfalso. assert (Hin : inl (window_at data 0) ∈ (dom (ngram_profile data) : gset ngkey)).
    { apply Hdom. exists 0%nat. split; [lia|reflexivity]. }
    rewrite Hempty, dom_empty_L in Hin. set_solver.
Qed.

(** ** The byte loop and the entropy *)

Lemma counter_get_incr (a b : byte) (freq : list (byte * Z)) :
  counter_get b (counter_incr a freq)
  = (counter_get b freq + if bool_decide (a = b) then 1 else 0)%Z.
Proof.
  induction freq as [|[k c] rest IH]; simpl.
  - destruct (bool_decide (a = b)); lia.
  - destruct (bool_decide (k = a)) eqn:Eka; simpl.
    + apply bool_decide_eq_true in Eka. subst k.
      destruct (bool_decide (a = b)); lia.
    + apply bool_decide_eq_false in Eka.
      destruct (bool_decide (k = b)) eqn:Ekb; [|exact IH].
      apply bool_decide_eq_true in Ekb. subst k.
      rewrite bool_decide_eq_false_2 by congruence. lia.
Qed.

Lemma counter_incr_keys (a : byte) (freq : list (byte * Z)) :
  map fst (counter_incr a freq)
  = if bool_decide (a ∈ map fst freq) then map fst freq else map fst freq ++ [a].
Proof.
  induction freq as [|[k c] rest IH]; cbn [counter_incr map fst].
  - rewrite bool_decide_eq_false_2; [reflexivity|]. apply not_elem_of_nil.
  - destruct (bool_decide (k = a)) eqn:Eka; cbn [map fst].
    + apply bool_decide_eq_true in Eka. subst k.
      rewrite bool_decide_eq_true_2; [reflexivity|]. apply list_elem_of_here.
    + apply bool_decide_eq_false in Eka. rewrite IH.
      destruct (bool_decide (a ∈ map fst rest)) eqn:Ein.
      * apply bool_decide_eq_true in Ein.
        rewrite bool_decide_eq_true_2; [reflexivity|].
        apply list_elem_of_further, Ein.
      * apply bool_decide_eq_false in Ein.
        rewrite bool_decide_eq_false_2; [reflexivity|].
        intros H. apply elem_of_cons in H as [H|H]; [congruence|contradiction].
Qed.

Lemma counter_incr_sum (a : byte) (freq : list (byte * Z)) :
  fold_right Z.add 0%Z (map snd (counter_incr a freq))
  = (fold_right Z.add 0%Z (map snd freq) + 1)%Z.
Proof.
  induction freq as [|[k c] rest IH]; simpl; [reflexivity|].
  destruct (bool_decide (k = a)); simpl; lia.
Qed.

Lemma counter_incr_NoDup (a : byte) (freq : list (byte * Z)) :
  NoDup (map fst freq) -> NoDup (map fst (counter_incr a freq)).
Proof.
  intros Hnd. rewrite counter_incr_keys.
  destruct (bool_decide (a ∈ map fst freq)) eqn:E; [exact Hnd|].
  apply bool_decide_eq_false in E. apply NoDup_app. repeat split.
  - exact Hnd.
  - intros x Hx Hxa. apply list_elem_of_singleton in Hxa. subst x. contradiction.
  - apply NoDup_singleton.
Qed.

Lemma histogram_from_spec (raw : list byte) :
  forall freq,
    NoDup (map fst freq) ->
    NoDup (map fst (histogram_from freq raw))
    /\ (forall b, counter_get b (histogram_from freq raw)
                  = (counter_get b freq + occurrences b raw)%Z)
    /\ fold_right Z.add 0%Z (map snd (histogram_from freq raw))
       = (fold_right Z.add 0%Z (map snd freq) + Z.of_nat (length raw))%Z.
Proof.
  induction raw as [|a rest IH]; intros freq Hnd.
  - unfold histogram_from. simpl. repeat split; [exact Hnd|intros; lia|lia].
  - destruct (IH (counter_incr a freq) (counter_incr_NoDup a freq Hnd))
      as (H1 & H2 & H3).
    change (histogram_from freq (a :: rest))
      with (histogram_from (counter_incr a freq) rest).
    repeat split; [exact H1| |].
    + intros b. rewrite H2, counter_get_incr. cbn [occurrences]. lia.
    + rewrite H3, counter_incr_sum. cbn [length]. lia.
Qed.

Lemma printable_count_bounds (raw : list byte) :
  (0 <= printable_count raw <= Z.of_nat (length raw))%Z.
Proof.
  induction raw as [|a rest IH]; simpl; [lia|].
  destruct (printable a); lia.
Qed.

Lemma scan_bytes_spec (raw : list byte) :
  forall freq cnt,
    match scan_bytes raw freq cnt with
    | Some (freq', cnt') =>
        Forall (fun b => (byte_val b < 127)%Z) raw
        /\ freq' = histogram_from freq raw
        /\ cnt' = (cnt + printable_count raw)%Z
    | None => Exists (fun b => (127 <= byte_val b)%Z) raw
    end.
Proof.
  induction raw as [|a rest IH]; intros freq cnt.
  - simpl. repeat split; [constructor|lia].
  - cbn [scan_bytes]. destruct (byte_val a <? 127)%Z eqn:Ea.
    + apply Z.ltb_lt in Ea.
      assert (Hstep : forall c,
        match scan_bytes rest (counter_incr a freq) c with
        | Some (freq', cnt') =>
            Forall (fun b => (byte_val b < 127)%Z) (a :: rest)
            /\ freq' = histogram_from freq (a :: rest)
            /\ cnt' = (c + printable_count rest)%Z
        | None => Exists (fun b => (127 <= byte_val b)%Z) (a :: rest)
        end).
      { intros c. specialize (IH (counter_incr a freq) c).
        destruct (scan_bytes rest (counter_incr a freq) c) as [[f' c']|].
        - destruct IH as (Hall & Hf & Hc). repeat split; try assumption.
          constructor; assumption.
        - apply Exists_cons_tl, IH. }
      cbn [printable_count]. unfold printable.
      destruct ((ASCII_MIN <=? byte_val a)%Z && (byte_val a <=? ASCII_MAX)%Z).
      * specialize (Hstep (cnt + 1)%Z).
        destruct (scan_bytes rest (counter_incr a freq) (cnt + 1)) as [[f' c']|];
          [|exact Hstep].
        destruct Hstep as (Hall & Hf & Hc). repeat split; try assumption. lia.
      * specialize (Hstep cnt).
        destruct (scan_bytes rest (counter_incr a freq) cnt) as [[f' c']|];
          [|exact Hstep].
        destruct Hstep as (Hall & Hf & Hc). repeat split; try assumption; lia.
    + apply Z.ltb_ge in Ea. apply Exists_cons_hd. exact Ea.
Qed.

(** X4. The byte loop either meets a byte that is not below 127, or it
    ends with an exact histogram (one entry per byte value that occurs,
    holding its number of occurrences, the counts adding up to the
    length) and with the number of printable bytes, which lies between 0
    and the length. *)
Theorem scan_bytes_histogram (raw : list byte) :
  match scan_bytes raw [] 0 with
  | Some (freq, printable_cnt) =>
      Forall (fun b => (byte_val b < 127)%Z) raw
      /\ NoDup (map fst freq)
      /\ (forall b, counter_get b freq = occurrences b raw)
      /\ fold_right Z.add 0%Z (map snd freq) = total_of raw
      /\ printable_cnt = printable_count raw
      /\ (0 <= printable_cnt <= total_of raw)%Z
  | None => Exists (fun b => (127 <= byte_val b)%Z) raw
  end.
Proof.
  pose proof (scan_bytes_spec raw [] 0%Z) as H.
  destruct (scan_bytes raw [] 0) as [[freq cnt]|]; [|exact H].
  destruct H as (Hall & -> & ->).
  destruct (histogram_from_spec raw [] (NoDup_nil_2)) as (H1 & H2 & H3).
  pose proof (printable_count_bounds raw) as Hb. unfold total_of.
  repeat split; try assumption; lia.
Qed.

Lemma histogram_replicate (b : byte) (n : nat) :
  forall c : Z,
    histogram_from [(b, c)] (replicate n b) = [(b, (c + Z.of_nat n)%Z)].
Proof.
  induction n as [|n IH]; intros c.
  - unfold histogram_from. simpl. f_equal. f_equal. lia.
  - change (histogram_from [(b, c)] (replicate (S n) b))
      with (histogram_from (counter_incr b [(b, c)]) (replicate n b)).
    cbn [counter_incr]. rewrite bool_decide_eq_true_2 by reflexivity.
    rewrite IH. f_equal. f_equal. lia.
Qed.

(** X5. The entropy of content that repeats one byte value is 0, for
    any logarithm that is 0 at 1. *)
Theorem entropy_single_value (log2 : Q -> Q) (b : byte) (n : nat) :
  log2_like log2 ->
  let raw := replicate (S n) b in
  (entropy log2 (histogram raw) (total_of raw) == 0)%Q.
Proof.
  intros [Hone Hproper] raw. subst raw. unfold histogram, total_of.
  change (histogram_from [] (replicate (S n) b))
    with (histogram_from (counter_incr b []) (replicate n b)).
  cbn [counter_incr]. rewrite histogram_replicate, length_replicate.
  unfold entropy. cbn [map fold_left snd].
  replace (1 + Z.of_nat n)%Z with (Z.of_nat (S n)) by lia.
  set (p := (inject_Z (Z.of_nat (S n)) / inject_Z (Z.of_nat (S n)))%Q).
  assert (Hp : (p == 1)%Q).
  { subst p. apply ratio_of_nat_one; [lia|reflexivity]. }
  rewrite (Hproper p 1%Q Hp), Hone. ring.
Qed.

Lemma entropy_single_value_witness :
  (entropy zero_log2 (histogram (replicate 5 x41)) (total_of (replicate 5 x41)) == 0)%Q.
Proof.
  apply (entropy_single_value zero_log2 x41 4).
  split; [reflexivity|]. intros x y _. reflexivity.
Defined.

(** ** More on the analyzer *)

Section AnalyzerMore.

Variable log2 : Q -> Q.
Variable blake3_hexdigest : list byte -> string.
Variable format_f : nat -> Q -> string.

Local Abbreviation analyze :=
  (analyze_file_single_pass log2 blake3_hexdigest format_f).
Local Abbreviation assessN := (assess log2 blake3_hexdigest format_f).
Local Abbreviation rprintable := (reasons_printable format_f).
Local Abbreviation rchecksum := (reasons_checksum format_f).
Local Abbreviation process := (_process log2 blake3_hexdigest format_f).
Local Abbreviation scan := (scan_file log2 blake3_hexdigest format_f).
Local Abbreviation scan_all := (scan_files log2 blake3_hexdigest format_f).

(** X6. A changed file whose extension is not [.txt] in any letter case
    yields exactly [extension] and no profile; its content is not read. *)
Theorem extension_is_conclusive (path : Path) (prev : option BaselineEntry)
    (fs : FileView) (s : stat_result) :
  stat fs = Return s ->
  mtime_changed prev (st_mtime s) ->
  lower (suffix path) <> ".txt" ->
  analyze path (BEntry <$> prev) fs = ([], Return (["extension"], None)).
Proof.
  intros Hs Hm Hsuf. unfold analyze_file_single_pass, analyze_with.
  rewrite Hs, prev_latest_of_entry, (mtime_test_false _ _ Hm).
  destruct (String.eqb (lower (suffix path)) ".txt") eqn:E; [|reflexivity].
  apply String.eqb_eq in E. contradiction.
Qed.

(** X7. A changed, readable, empty [.txt] file yields no reason and a
    profile with entropy 0, no n-grams, the fingerprint of the empty
    content and the size of a second [stat]; if that second [stat] fails,
    the call raises. *)
Theorem empty_file_profile (path : Path) (prev : option BaselineEntry)
    (fs : FileView) (s : stat_result) :
  stat fs = Return s ->
  mtime_changed prev (st_mtime s) ->
  lower (suffix path) = ".txt" ->
  read_bytes fs = Return [] ->
  analyze path (BEntry <$> prev) fs
  = match stat_again fs with
    | Return s2 =>
        ([], Return ([], Some {| p_checksum := blake3sum blake3_hexdigest [];
                                 p_entropy := 0;
                                 p_mtime := st_mtime s;
                                 p_timestamp := now_iso fs;
                                 p_ngram := ∅;
                                 p_size := st_size s2 |}))
    | Raise e => ([], Raise e)
    end.
Proof.
  intros Hs Hm Hsuf Hr. unfold analyze_file_single_pass, analyze_with.
  rewrite Hs, prev_latest_of_entry, (mtime_test_false _ _ Hm), Hsuf, Hr.
  reflexivity.
Qed.

Lemma rchecksum_shape (pl : option FileProfile) (r ent : Q) (c : string) :
  rchecksum pl r ent c = [low_printable_reason format_f r]
  \/ rchecksum pl r ent c = ["checksum+entropy"]
  \/ rchecksum pl r ent c = [].
Proof.
  unfold reasons_checksum, reasons_printable.
  destruct (Qltb r PRINTABLE_THR); cbn [is_nil andb]; [left; reflexivity|].
  destruct (checksum_changed pl c); [|right; right; reflexivity].
  unfold classify. cbn [andb app].
  destruct (entropy_up pl ent); [right; left|right; right]; reflexivity.
Qed.

Lemma assess_shape (cap : nat) (pl : option FileProfile) (mtime : Q)
    (ts : string) (raw : list byte) (freq : list (byte * Z)) (cnt : Z) :
  match snd (assessN cap pl mtime ts raw freq cnt) with
  | Return (reasons, _) => reason_shape format_f reasons
  | Raise _ => True
  end.
Proof.
  unfold assess.
  set (r := (inject_Z cnt / inject_Z (Z.of_nat (length raw)))%Q).
  set (ent := entropy log2 freq (Z.of_nat (length raw))).
  set (c := blake3sum blake3_hexdigest raw).
  assert (Hshape : reason_shape format_f (rchecksum pl r ent c)).
  { destruct (rchecksum_shape pl r ent c) as [->|[->| ->]]; constructor. }
  destruct (is_nil (rprintable r) && checksum_changed pl c
            && (cap <=? length (rchecksum pl r ent c))%nat);
    [exact Hshape|].
  cbv zeta. cbn [snd].
  destruct (is_nil (rchecksum pl r ent c)) eqn:E; cbn [andb]; [|exact Hshape].
  apply is_nil_true in E. rewrite E.
  match goal with |- context [if ?b then _ else _] => destruct b end;
    cbn [app]; constructor.
Qed.

Lemma analyze_shape (path : Path) (prev : option bval) (fs : FileView) :
  match snd (analyze path prev fs) with
  | Return (reasons, _) => reason_shape format_f reasons
  | Raise _ => True
  end.
Proof.
  unfold analyze_file_single_pass, analyze_with.
  destruct (stat fs) as [s|]; [|exact I].
  destruct (prev_latest_of prev) as [pl|]; [|exact I].
  match goal with |- context [if ?b then _ else _] => destruct b end;
    [constructor|].
  destruct (negb (String.eqb (lower (suffix path)) ".txt")); [constructor|].
  destruct (read_bytes fs) as [raw|e]; [|constructor].
  destruct (is_nil raw).
  - destruct (stat_again fs); [constructor|exact I].
  - destruct (scan_bytes raw [] 0) as [[freq cnt]|]; [|constructor].
    apply assess_shape.
Qed.

(** X8. The reasons a call returns are of one of seven kinds: none,
    [extension], [read_error:...], [non_ascii], the low-printable reason,
    [checksum+entropy], or the n-gram anomaly. The strings
    [entropy+printable+checksum] and [checksum+low_printable] are never
    returned. *)
Theorem analyze_reason_shapes (path : Path) (prev : option bval) (fs : FileView) :
  match snd (analyze path prev fs) with
  | Return (reasons, _) =>
      reason_shape format_f reasons
      /\ ("entropy+printable+checksum" ∉ reasons)
      /\ ("checksum+low_printable" ∉ reasons)
  | Raise _ => True
  end.
Proof.
  pose proof (analyze_shape path prev fs) as H.
  destruct (snd (analyze path prev fs)) as [[reasons profile]|]; [|exact I].
  split; [exact H|].
  unfold low_printable_reason, ngram_reason in H.
  split; intros Hin; inversion H; subst reasons;
    try (apply elem_of_nil in Hin; exact Hin);
    apply list_elem_of_singleton in Hin; simpl in Hin; discriminate Hin.
Qed.

Lemma assess_profile (cap : nat) (pl : option FileProfile) (mtime : Q)
    (ts : string) (raw : list byte) (freq : list (byte * Z)) (cnt : Z)
    (printed reasons : list string) (pr : FileProfile) :
  assessN cap pl mtime ts raw freq cnt = (printed, Return (reasons, Some pr)) ->
  p_checksum pr = blake3sum blake3_hexdigest raw
  /\ p_entropy pr = entropy log2 freq (Z.of_nat (length raw))
  /\ p_mtime pr = mtime
  /\ p_timestamp pr = ts
  /\ p_size pr = Z.of_nat (length raw)
  /\ (p_ngram pr = ∅ \/ p_ngram pr = ngram_profile raw).
Proof.
  unfold assess.
  match goal with |- context [if ?b then (_, Return (_, None)) else _] =>
    destruct b end; [discriminate|].
  cbv zeta. intros H. inversion H; subst. cbn [p_checksum p_entropy p_mtime
    p_timestamp p_size p_ngram]. repeat split.
  repeat match goal with |- context [if ?b then _ else _] => destruct b end;
    auto.
Qed.

Lemma analyze_profile_facts (path : Path) (prev : option bval) (fs : FileView)
    (printed reasons : list string) (pr : FileProfile) :
  analyze path prev fs = (printed, Return (reasons, Some pr)) ->
  exists (s : stat_result) (raw : list byte),
    stat fs = Return s
    /\ read_bytes fs = Return raw
    /\ lower (suffix path) = ".txt"
    /\ Forall (fun b => (byte_val b < 127)%Z) raw
    /\ p_mtime pr = st_mtime s
    /\ p_checksum pr = blake3sum blake3_hexdigest raw
    /\ p_timestamp pr = now_iso fs
    /\ (p_ngram pr = ∅ \/ p_ngram pr = ngram_profile raw)
    /\ (raw = [] -> p_entropy pr = 0%Q /\ p_ngram pr = ∅)
    /\ (raw <> [] ->
        p_size pr = total_of raw
        /\ p_entropy pr = entropy log2 (histogram raw) (total_of raw)).
Proof.
  intros H. pose proof (analyze_profile_txt _ _ _ _ _ _ _ _ _ H) as Hsuf.
  revert H. unfold analyze_file_single_pass, analyze_with.
  destruct (stat fs) as [s|]; [|discriminate].
  destruct (prev_latest_of prev) as [pl|]; [|discriminate].
  match goal with |- context [if ?b then _ else _] => destruct b end;
    [discriminate|].
  rewrite Hsuf. cbn [String.eqb negb].
  replace (String.eqb ".txt" ".txt") with true by reflexivity. cbn [negb].
  destruct (read_bytes fs) as [raw|e]; [|discriminate].
  exists s, raw. destruct raw as [|a rest].
  - cbn [is_nil] in H. destruct (stat_again fs) as [s2|]; [|discriminate].
    inversion H; subst. cbn. repeat split; auto. contradiction.
  - cbn [is_nil] in H.
    pose proof (scan_bytes_spec (a :: rest) [] 0%Z) as Hscan.
    destruct (scan_bytes (a :: rest) [] 0) as [[freq cnt]|]; [|discriminate].
    destruct Hscan as (Hall & -> & ->).
    apply assess_profile in H as (H1 & H2 & H3 & H4 & H5 & H6).
    repeat split; auto; discriminate.
Qed.

(** X9. A profile that the analyzer returns describes the file it was
    given: the file is a readable [.txt] file with all bytes below 127,
    and the profile holds its modification time, the fingerprint of its
    content, the time of the call, for non-empty content its length and
    the entropy of its histogram, and as n-grams either nothing or the
    n-gram profile of the content. *)
Theorem returned_profile_describes_file (path : Path) (prev : option bval)
    (fs : FileView) (printed reasons : list string) (pr : FileProfile) :
  analyze path prev fs = (printed, Return (reasons, Some pr)) ->
  exists (s : stat_result) (raw : list byte),
    stat fs = Return s
    /\ read_bytes fs = Return raw
    /\ lower (suffix path) = ".txt"
    /\ Forall (fun b => (byte_val b < 127)%Z) raw
    /\ p_mtime pr = st_mtime s
    /\ p_checksum pr = blake3sum blake3_hexdigest raw
    /\ p_timestamp pr = now_iso fs
    /\ (p_ngram pr = ∅ \/ p_ngram pr = ngram_profile raw)
    /\ (raw = [] -> p_entropy pr = 0%Q /\ p_ngram pr = ∅)
    /\ (raw <> [] ->
        p_size pr = total_of raw
        /\ p_entropy pr = entropy log2 (histogram raw) (total_of raw)).
Proof. apply analyze_profile_facts. Qed.

Lemma print_nothing (st : State) : print [] st = st.
Proof. destruct st. unfold print. cbn. rewrite app_nil_r. reflexivity. Qed.

Lemma record_profile_lookup (key : string) (pr : FileProfile)
    (b b' : gmap string bval) :
  record_profile key pr b = Return b' ->
  exists e, b' !! key = Some (BEntry e) /\ latest e = pr.
Proof.
  intros H. apply record_profile_inv in H. subst b'.
  eexists. split; [apply lookup_insert_eq|reflexivity].
Qed.

Lemma analyze_same_mtime (path : Path) (e : BaselineEntry) (fs : FileView)
    (s : stat_result) :
  stat fs = Return s ->
  (st_mtime s == p_mtime (latest e))%Q ->
  analyze path (Some (BEntry e)) fs = ([], Return ([], None)).
Proof.
  intros Hs Hm. unfold analyze_file_single_pass, analyze_with.
  rewrite Hs. cbn [prev_latest_of].
  replace (Qeq_bool (p_mtime (latest e)) (st_mtime s)) with true; [reflexivity|].
  symmetry. apply Qeq_bool_iff. symmetry. exact Hm.
Qed.

(** X10. Once a step of the seed scan has recorded a profile for a file,
    the file is skipped as long as its modification time stays the same:
    scanning it again changes nothing at all, and a live notification
    for it that passes the three gates changes only the burst window. *)
Theorem recorded_file_is_skipped (file : Path) (env env2 : Tick) (st st1 : State)
    (s s2 : stat_result) (printed reasons : list string) (pr : FileProfile) :
  analyze file (base st !! str file) (view env) = (printed, Return (reasons, Some pr)) ->
  scan file env st = (st1, Return ()) ->
  stat (view env) = Return s ->
  stat (view env2) = Return s2 ->
  (st_mtime s2 == st_mtime s)%Q ->
  scan file env2 st1 = (st1, Return ())
  /\ (is_honeypot (base st1) (name file) = false ->
      ignored (name file) = false ->
      snd (_too_many_events (now_burst env2) (events_window st1)) = false ->
      process file env2 st1
      = (set_window (fst (_too_many_events (now_burst env2) (events_window st1))) st1,
         Return ())).
Proof.
  intros Ha Hscan Hs Hs2 Hm.
  assert (Hlook : exists e, base st1 !! str file = Some (BEntry e) /\ latest e = pr).
  { revert Hscan. unfold scan_file. rewrite Ha. cbn [record_if base print].
    destruct (record_profile (str file) pr (base st)) as [b'|err] eqn:Er;
      [|discriminate].
    intros H. inversion H; subst st1.
    apply record_profile_lookup in Er as (e & He & Hl). exists e. split; [|exact Hl].
    destruct (is_nil reasons); [exact He|]. rewrite alert_base. exact He. }
  destruct Hlook as (e & He & Hl).
  destruct (analyze_profile_facts _ _ _ _ _ _ Ha) as (s' & raw & Hs' & _ & _ & _ & Hpm & _).
  rewrite Hs in Hs'. inversion Hs'; subst s'.
  assert (Hskip : analyze file (base st1 !! str file) (view env2) = ([], Return ([], None))).
  { rewrite He. apply (analyze_same_mtime _ _ _ s2 Hs2). rewrite Hl, Hpm. exact Hm. }
  split.
  - unfold scan_file. rewrite Hskip. cbn [record_if is_nil].
    rewrite print_nothing. destruct st1; reflexivity.
  - intros Hh Hi Hb. unfold _process. rewrite Hh, Hi.
    destruct (_too_many_events (now_burst env2) (events_window st1)) as [w burst].
    cbn [snd] in Hb. subst burst. cbn [fst base set_window].
    rewrite Hskip. cbn [record_if is_nil]. rewrite print_nothing. reflexivity.
Qed.

Lemma ngram_profile_key_bytes (data : list byte) (k : ngkey) :
  k ∈ (dom (ngram_profile data) : gset ngkey) -> exists w : list byte, k = inl w.
Proof.
  unfold ngram_profile, ngram_profile_with.
  rewrite dom_ngram_fold, dom_empty_L, elem_of_union, elem_of_list_to_set.
  rewrite list_elem_of_In, in_map_iff.
  intros [(i & Hk & _)|Hempty]; [eauto|set_solver].
Qed.

Lemma jaccard_disjoint (a b : gmap ngkey Z) :
  dom a ∩ dom b = (∅ : gset ngkey) -> (jaccard a b == 0)%Q.
Proof.
  intros H. unfold jaccard. rewrite H, size_empty.
  apply ratio_of_nat_zero; [apply jaccard_denominator_pos|reflexivity].
Qed.

(** An n-gram map whose keys are all strings shares no key with a map
    built from content. *)
Lemma string_keys_never_match (m : gmap ngkey Z) (raw : list byte) :
  (forall k, k ∈ (dom m : gset ngkey) -> exists s : string, k = inr s) ->
  (jaccard m (ngram_profile raw) == 0)%Q.
Proof.
  intros Hkeys. apply jaccard_disjoint. apply leibniz_equiv.
  intros k. split; [|set_solver].
  intros [Hm Hn]%elem_of_intersection.
  apply Hkeys in Hm as [s ->]. apply ngram_profile_key_bytes in Hn as [w Hw].
  discriminate Hw.
Qed.

(** X11. N-grams read back from the baseline file never match. When the
    previous profile carries n-grams under string keys (as every profile
    loaded from JSON does) and a changed [.txt] file passes the earlier
    tests without a reason (printable ratio not below the threshold,
    fingerprint changed, entropy not up), the similarity is 0 and the
    call reports the n-gram anomaly, whatever the new content is. *)
Theorem reloaded_ngrams_always_flag (path : Path) (e : BaselineEntry)
    (fs : FileView) (s : stat_result) (raw : list byte) :
  stat fs = Return s ->
  mtime_changed (Some e) (st_mtime s) ->
  lower (suffix path) = ".txt" ->
  read_bytes fs = Return raw ->
  raw <> [] ->
  Forall (fun b => (byte_val b < 127)%Z) raw ->
  p_ngram (latest e) <> ∅ ->
  (forall k, k ∈ (dom (p_ngram (latest e)) : gset ngkey) -> exists str_key : string, k = inr str_key) ->
  rprintable (printable_ratio_of raw) = [] ->
  checksum_changed (Some (latest e)) (blake3sum blake3_hexdigest raw) = true ->
  entropy_up (Some (latest e)) (entropy log2 (histogram raw) (total_of raw)) = false ->
  let sim := jaccard (p_ngram (latest e)) (ngram_profile raw) in
  (sim == 0)%Q
  /\ exists pr,
       analyze path (Some (BEntry e)) fs
       = ([("[DEBUG] Jaccard similarity: " ++ format_f 3 sim)%string],
          Return ([ngram_reason format_f sim], Some pr))
       /\ p_ngram pr = ngram_profile raw.
Proof.
  intros Hs Hm Hsuf Hr Hne Hascii Hng Hkeys Hnil Hchg Hup sim.
  assert (Hsim : (sim == 0)%Q) by (apply string_keys_never_match, Hkeys).
  split; [exact Hsim|].
  unfold analyze_file_single_pass.
  rewrite (analyze_reaches_scan _ _ _ _ _ (Some e) _ _ _ Hs Hm Hsuf Hr Hne).
  rewrite (scan_bytes_ascii raw [] 0%Z Hascii).
  unfold assess.
  change (inject_Z (0 + printable_count raw) / inject_Z (Z.of_nat (length raw)))%Q
    with (printable_ratio_of raw).
  change (histogram_from [] raw) with (histogram raw).
  change (Z.of_nat (length raw)) with (total_of raw).
  cbn [fmap option_fmap option_map].
  assert (Hrs : rchecksum (Some (latest e)) (printable_ratio_of raw)
                  (entropy log2 (histogram raw) (total_of raw))
                  (blake3sum blake3_hexdigest raw) = []).
  { unfold reasons_checksum. rewrite Hnil, Hchg, Hup. cbn [is_nil andb].
    unfold reasons_printable in Hnil.
    destruct (Qltb (printable_ratio_of raw) PRINTABLE_THR); [discriminate Hnil|].
    reflexivity. }
  rewrite Hrs, Hnil, Hchg. cbn [is_nil andb length].
  replace (MAX_REASONS <=? 0)%nat with false by reflexivity.
  rewrite (bool_decide_eq_false_2 _ Hng). cbn [negb orb andb].
  fold sim.
  assert (Hlt : Qltb sim JACC_THR = true).
  { apply Qltb_lt. rewrite Hsim. reflexivity. }
  rewrite Hlt. cbn [app].
  eexists. split; [reflexivity|]. cbn [p_ngram].
  match goal with |- context [if ?b then _ else _] => destruct b end;
    (destruct (bool_decide (ngram_profile raw = ∅)) eqn:E;
     [apply bool_decide_eq_true in E; congruence|reflexivity]).
Qed.

End AnalyzerMore.

(** ** More on alert, the gates and the seed scan *)

(** X12. What one call of [alert] does. Either it is suppressed: the
    state is unchanged, and the table holds the same reason string for
    the path with a time less than 5 seconds behind the clock. Or it
    emits: one line is appended, the record of the path becomes the
    reason string with the current time, baseline and window are not
    touched, and the table did not hold the same string with a time less
    than 5 seconds behind. In particular a new path or a new reason
    string always emits. *)
Theorem alert_outcome (p : Path) (reasons : list string) (now : Q) (st : State) :
  let reason_str := String.concat ", " reasons in
  let st' := alert p reasons now st in
  (st' = st
   /\ exists t, last_alerts st !! str p = Some (reason_str, t)
                /\ (now - t < 5)%Q)
  \/ (stdout st' = stdout st ++ [alert_line p reason_str]
      /\ last_alerts st' = <[str p := (reason_str, now)]> (last_alerts st)
      /\ base st' = base st
      /\ events_window st' = events_window st
      /\ forall t, last_alerts st !! str p = Some (reason_str, t) -> (5 <= now - t)%Q).
Proof.
  intros reason_str st'. subst st'. unfold alert. fold reason_str.
  destruct (suppressed (last_alerts st !! str p) reason_str now) eqn:E.
  - left. split; [reflexivity|]. unfold suppressed in E.
    destruct (last_alerts st !! str p) as [[r t]|]; [|discriminate].
    apply andb_true_iff in E as [Er Et].
    apply String.eqb_eq in Er. subst r. apply Qltb_lt in Et.
    exists t. split; [reflexivity|exact Et].
  - right. cbn [stdout last_alerts base events_window].
    repeat split. intros t Ht. rewrite Ht in E. cbn [suppressed] in E.
    rewrite String.eqb_refl in E. cbn [andb] in E. apply Qltb_ge in E. exact E.
Qed.

(** X13. On the first run the decoy names that are registered are
    exactly the names of the list whose file did not exist yet; a
    baseline that already has the key, with whatever value, is left as it
    is, so placing twice is placing once. *)
Theorem place_honeypots_registers_absent (present present' : string -> bool)
    (st : State) (filename : string) :
  (base st !! "honeypots" = None ->
   (is_honeypot (base (place_honeypots present st)) filename = true
    <-> filename ∈ HONEYPOT_NAMES /\ present filename = false))
  /\ (is_Some (base st !! "honeypots") -> place_honeypots present st = st)
  /\ place_honeypots present' (place_honeypots present st)
     = place_honeypots present st.
Proof.
  assert (Hkeep : forall pr s, is_Some (base s !! "honeypots") ->
                               place_honeypots pr s = s).
  { intros pr s [v Hv]. unfold place_honeypots. rewrite Hv. reflexivity. }
  split; [|split].
  - intros Hnone. unfold place_honeypots, is_honeypot, honeypots.
    rewrite Hnone. cbn [base set_base]. rewrite lookup_insert_eq.
    rewrite bool_decide_eq_true, list_elem_of_filter. tauto.
  - apply Hkeep.
  - apply Hkeep. unfold place_honeypots.
    destruct (base st !! "honeypots") eqn:E; [rewrite E; eauto|].
    cbn [base set_base]. rewrite lookup_insert_eq. eauto.
Qed.

Section GuardMore.

Variable log2 : Q -> Q.
Variable blake3_hexdigest : list byte -> string.
Variable format_f : nat -> Q -> string.

Local Abbreviation analyze :=
  (analyze_file_single_pass log2 blake3_hexdigest format_f).
Local Abbreviation process := (_process log2 blake3_hexdigest format_f).
Local Abbreviation scan := (scan_file log2 blake3_hexdigest format_f).
Local Abbreviation scan_all := (scan_files log2 blake3_hexdigest format_f).

(** X14. A notification that a gate stops is not analysed: whatever the
    file system would answer, the call returns normally, the baseline is
    unchanged and at most one line is printed; a decoy or ignored name
    does not enter the burst window either. *)
Theorem gated_event_is_not_analysed (p : Path) (env : Tick) (st : State) :
  is_honeypot (base st) (name p) = true
  \/ ignored (name p) = true
  \/ snd (_too_many_events (now_burst env) (events_window st)) = true ->
  let st' := fst (process p env st) in
  snd (process p env st) = Return ()
  /\ base st' = base st
  /\ (stdout st' = stdout st \/ exists line, stdout st' = stdout st ++ [line])
  /\ (is_honeypot (base st) (name p) = true \/ ignored (name p) = true ->
      events_window st' = events_window st).
Proof.
  intros Hgate st'. subst st'. unfold _process.
  assert (Halert : forall q rs t s,
            base (alert q rs t s) = base s
            /\ events_window (alert q rs t s) = events_window s
            /\ (stdout (alert q rs t s) = stdout s
                \/ exists line, stdout (alert q rs t s) = stdout s ++ [line])).
  { intros q rs t s. unfold alert. destruct (suppressed _ _ _); cbn; eauto. }
  destruct (is_honeypot (base st) (name p)) eqn:Eh.
  - cbn [fst snd]. destruct (Halert p ["honeypot_access"] (now_alert env) st)
      as (H1 & H2 & H3). auto.
  - destruct (ignored (name p)) eqn:Ei; [cbn [fst snd]; auto|].
    destruct Hgate as [H|[H|H]]; try discriminate H.
    destruct (_too_many_events (now_burst env) (events_window st)) as [w burst].
    cbn [snd] in H. subst burst. cbn [fst snd].
    destruct (Halert "★" [burst_reason] (now_alert env) (set_window w st))
      as (H1 & H2 & H3).
    repeat split; [exact H1|exact H3|]. intros [H|H]; discriminate H.
Qed.

(** X15. During a flood nothing is analysed. When the window already
    holds at least 9 entries and its oldest entry is at most 5 seconds
    old, the next notification (not a decoy, not ignored) only joins the
    window and raises the burst alert for the sentinel path; the file is
    not looked at and the baseline is unchanged. *)
Theorem flood_stops_analysis (p : Path) (env : Tick) (st : State)
    (t : Q) (w : list Q) :
  events_window st = t :: w ->
  recent (now_burst env) t = true ->
  (9 <= length (t :: w))%nat ->
  is_honeypot (base st) (name p) = false ->
  ignored (name p) = false ->
  process p env st
  = (alert "★" ["burst>10 in 5s"] (now_alert env)
       (set_window (t :: w ++ [now_burst env]) st), Return ())
  /\ base (fst (process p env st)) = base st.
Proof.
  intros Hw Hrecent Hlen Hh Hi.
  assert (Hp : process p env st
            = (alert "★" ["burst>10 in 5s"] (now_alert env)
                 (set_window (t :: w ++ [now_burst env]) st), Return ())).
  { unfold _process. rewrite Hh, Hi. unfold _too_many_events.
    rewrite Hw. cbn [app]. rewrite evict_cons, Hrecent.
    replace (BURST_THRESHOLD <=? length (t :: w ++ [now_burst env]))%nat with true.
    - reflexivity.
    - symmetry. apply Nat.leb_le. cbn [length] in *. rewrite length_app.
      cbn [length]. unfold BURST_THRESHOLD. lia. }
  split; [exact Hp|]. rewrite Hp. cbn [fst]. rewrite alert_base. reflexivity.
Qed.

Lemma scan_files_app (l1 l2 : list (Path * Tick)) :
  forall st,
    scan_all (l1 ++ l2) st
    = match scan_all l1 st with
      | (st1, Return _) => scan_all l2 st1
      | (st1, Raise e) => (st1, Raise e)
      end.
Proof.
  induction l1 as [|[f env] rest IH]; intros st; cbn [app scan_files].
  - reflexivity.
  - destruct (scan f env st) as [st' [[]|e]]; [apply IH|reflexivity].
Qed.

Lemma scan_file_window (file : Path) (env : Tick) (st : State) :
  events_window (fst (scan file env st)) = events_window st.
Proof.
  unfold scan_file.
  destruct (analyze file (base st !! str file) (view env)) as [printed [[rs pf]|e]];
    [|reflexivity].
  cbn [base print].
  destruct (record_if (str file) pf (base st)) as [b|e]; [|reflexivity].
  cbn [fst]. destruct (is_nil rs); [reflexivity|].
  unfold alert. destruct (suppressed _ _ _); reflexivity.
Qed.

Lemma scan_files_window (files : list (Path * Tick)) :
  forall st, events_window (fst (scan_all files st)) = events_window st.
Proof.
  induction files as [|[f env] rest IH]; intros st; cbn [scan_files].
  - reflexivity.
  - pose proof (scan_file_window f env st) as H.
    destruct (scan f env st) as [st' [[]|e]]; cbn [fst] in *.
    + rewrite IH. exact H.
    + exact H.
Qed.

(** X16. A file that has vanished (its [stat] fails) is fatal. The seed
    scan stops there with the exception, in the state reached by the
    files before it, and the files after it are not scanned; a live
    notification that passes the gates raises too, after the event has
    entered the burst window. The seed scan never touches the window. *)
Theorem vanished_file_raises (p : Path) (env : Tick) (e : string)
    (before after : list (Path * Tick)) (st st1 : State) :
  stat (view env) = Raise e ->
  scan_all before st = (st1, Return ()) ->
  scan_all (before ++ (p, env) :: after) st = (st1, Raise e)
  /\ events_window st1 = events_window st
  /\ (is_honeypot (base st) (name p) = false ->
      ignored (name p) = false ->
      snd (_too_many_events (now_burst env) (events_window st)) = false ->
      process p env st
      = (set_window (fst (_too_many_events (now_burst env) (events_window st))) st,
         Raise e)).
Proof.
  intros Hstat Hbefore.
  assert (Ha : forall prev, analyze p prev (view env) = ([], Raise e)).
  { intros prev. unfold analyze_file_single_pass, analyze_with.
    rewrite Hstat. reflexivity. }
  split; [|split].
  - rewrite scan_files_app, Hbefore. cbn [scan_files]. unfold scan_file.
    rewrite Ha. rewrite print_nothing. reflexivity.
  - pose proof (scan_files_window before st) as H. rewrite Hbefore in H. exact H.
  - intros Hh Hi Hb. unfold _process. rewrite Hh, Hi.
    destruct (_too_many_events (now_burst env) (events_window st)) as [w burst].
    cbn [snd] in Hb. subst burst. cbn [fst base set_window].
    rewrite Ha, print_nothing. reflexivity.
Qed.

End GuardMore.

(** ** save_baseline: convert *)

Section PersistenceFacts.

Variable bytes_str : list byte -> string.

Local Abbreviation conv_ngram := (convert_ngram bytes_str).
Local Abbreviation conv_profile := (convert_profile bytes_str).
Local Abbreviation conv_entry := (convert_entry bytes_str).
Local Abbreviation conv_bval := (convert_bval bytes_str).
Local Abbreviation conv := (convert bytes_str).

Lemma convert_ngram_dom (m : gmap ngkey Z) (k : ngkey) :
  k ∈ (dom (conv_ngram m) : gset ngkey)
  <-> exists k0, k0 ∈ (dom m : gset ngkey) /\ k = convert_key bytes_str k0.
Proof.
  unfold convert_ngram. rewrite dom_list_to_map_L, elem_of_list_to_set.
  rewrite list_elem_of_fmap. split.
  - intros ([k1 v] & Hk & Hin). cbn [fst] in Hk. subst k.
    apply list_elem_of_In, in_map_iff in Hin as ([k0 v0] & Heq & Hin0).
    cbn [fst snd] in Heq. inversion Heq; subst.
    exists k0. split; [|reflexivity].
    apply list_elem_of_In, elem_of_map_to_list in Hin0.
    apply elem_of_dom. eauto.
  - intros (k0 & Hk0 & ->). apply elem_of_dom in Hk0 as [v Hv].
    exists (convert_key bytes_str k0, v). split; [reflexivity|].
    apply list_elem_of_In, in_map_iff. exists (k0, v). split; [reflexivity|].
    apply list_elem_of_In, elem_of_map_to_list. exact Hv.
Qed.

Lemma convert_ngram_string_keys (m : gmap ngkey Z) (k : ngkey) :
  k ∈ (dom (conv_ngram m) : gset ngkey) -> exists s : string, k = inr s.
Proof.
  intros (k0 & _ & ->)%convert_ngram_dom. unfold convert_key. eauto.
Qed.

Lemma convert_ngram_fixed (m : gmap ngkey Z) :
  (forall k, k ∈ (dom m : gset ngkey) -> exists s : string, k = inr s) ->
  conv_ngram m = m.
Proof.
  intros Hkeys. unfold convert_ngram.
  rewrite <- (list_to_map_to_list m) at 2. f_equal.
  rewrite <- (map_id (map_to_list m)) at 2.
  apply map_ext_in. intros [k v] Hin. cbn [fst snd].
  apply list_elem_of_In, elem_of_map_to_list in Hin.
  destruct (Hkeys k) as [s ->]; [apply elem_of_dom; eauto|]. reflexivity.
Qed.

Lemma convert_profile_idem (pr : FileProfile) :
  conv_profile (conv_profile pr) = conv_profile pr.
Proof.
  unfold convert_profile. cbn. f_equal.
  apply convert_ngram_fixed. intros k. apply convert_ngram_string_keys.
Qed.

Lemma convert_bval_idem (v : bval) : conv_bval (conv_bval v) = conv_bval v.
Proof.
  destruct v as [e|l]; [|reflexivity]. cbn. unfold convert_entry. cbn.
  f_equal. f_equal.
  - rewrite map_map. apply map_ext. intros pr. apply convert_profile_idem.
  - apply convert_profile_idem.
Qed.

(** X17. In the object that [save_baseline] serialises every n-gram key
    is a string. Such a profile shares no key with an n-gram profile
    built from content, so its similarity with any content is 0. *)
Theorem convert_writes_string_keys (b : gmap string bval) (k : string)
    (e : BaselineEntry) (pr : FileProfile) (raw : list byte) :
  conv b !! k = Some (BEntry e) ->
  pr ∈ latest e :: history e ->
  (forall key, key ∈ (dom (p_ngram pr) : gset ngkey) -> exists s : string, key = inr s)
  /\ (jaccard (p_ngram pr) (ngram_profile raw) == 0)%Q.
Proof.
  intros Hk Hpr. unfold convert in Hk. rewrite lookup_fmap in Hk.
  destruct (b !! k) as [[e0|l]|]; try discriminate Hk.
  cbn in Hk. inversion Hk; subst e. clear Hk.
  assert (Hconv : exists pr0, pr = conv_profile pr0).
  { cbn [latest history convert_entry] in Hpr.
    apply elem_of_cons in Hpr as [->|Hpr]; [eauto|].
    apply list_elem_of_In, in_map_iff in Hpr as (pr0 & <- & _). eauto. }
  destruct Hconv as [pr0 ->]. cbn [p_ngram convert_profile].
  assert (Hkeys : forall key, key ∈ (dom (conv_ngram (p_ngram pr0)) : gset ngkey) ->
                              exists s : string, key = inr s).
  { intros key. apply convert_ngram_string_keys. }
  split; [exact Hkeys|]. apply string_keys_never_match, Hkeys.
Qed.

(** X18. [convert] changes nothing but n-gram keys. Converting twice is
    converting once; the keys of the baseline and the decoy names are
    kept; an entry keeps the length of its history and the fingerprint,
    entropy, modification time, time stamp and size of its latest
    profile. *)
Theorem convert_keeps_the_rest (b : gmap string bval) (k : string) :
  conv (conv b) = conv b
  /\ dom (conv b) = (dom b : gset string)
  /\ (forall l, conv b !! k = Some (BNames l) <-> b !! k = Some (BNames l))
  /\ (forall e0, b !! k = Some (BEntry e0) ->
      exists e, conv b !! k = Some (BEntry e)
                /\ length (history e) = length (history e0)
                /\ p_checksum (latest e) = p_checksum (latest e0)
                /\ p_entropy (latest e) = p_entropy (latest e0)
                /\ p_mtime (latest e) = p_mtime (latest e0)
                /\ p_timestamp (latest e) = p_timestamp (latest e0)
                /\ p_size (latest e) = p_size (latest e0)).
Proof.
  split; [|split; [|split]].
  - unfold convert. apply map_eq. intros i. rewrite !lookup_fmap.
    destruct (b !! i) as [v|]; [|reflexivity]. cbn. f_equal.
    apply convert_bval_idem.
  - unfold convert. apply dom_fmap_L.
  - intros l. unfold convert. rewrite lookup_fmap.
    destruct (b !! k) as [[e0|l0]|]; cbn; split; intros H;
      try discriminate H; try exact H.
  - intros e0 He0. unfold convert. rewrite lookup_fmap, He0. cbn.
    eexists. split; [reflexivity|]. cbn. rewrite length_map. repeat split.
Qed.

End PersistenceFacts.

(** ** text_mutator.py: the non-ASCII corruption *)

Lemma byte_val_of_Z (z : Z) :
  (0 <= z < 256)%Z -> byte_val (byte_of_Z z) = z.
Proof.
  intros Hz. unfold byte_val, byte_of_Z.
  destruct (Byte.of_N (Z.to_N z)) as [b|] eqn:E.
  - cbn [default from_option id]. apply Byte.to_of_N in E. rewrite E. lia.
  - apply Byte.of_N_None_iff in E. lia.
Qed.

Lemma utf8_char_high (c : Z) :
  (128 <= c <= 255)%Z ->
  utf8_char c = [byte_of_Z (192 + c / 64); byte_of_Z (128 + c mod 64)]
  /\ Forall (fun b => (128 <= byte_val b)%Z) (utf8_char c).
Proof.
  intros Hc. unfold utf8_char.
  replace (c <? 128)%Z with false by (symmetry; apply Z.ltb_ge; lia).
  replace (c <? 2048)%Z with true by (symmetry; apply Z.ltb_lt; lia).
  split; [reflexivity|].
  assert (H1 : (0 <= c / 64 < 4)%Z).
  { split; [apply Z.div_pos; lia|apply Z.div_lt_upper_bound; lia]. }
  assert (H2 : (0 <= c mod 64 < 64)%Z) by (apply Z.mod_pos_bound; lia).
  repeat constructor; rewrite byte_val_of_Z; lia.
Qed.

Lemma corrupt_bytes_high (draws : list Z) :
  Forall (fun d => (128 <= d <= 255)%Z) draws ->
  Forall (fun b => (128 <= byte_val b)%Z) (corrupt_to_non_ascii draws)
  /\ length (corrupt_to_non_ascii draws) = (2 * length draws)%nat.
Proof.
  unfold corrupt_to_non_ascii, corrupt_text, encode_utf8.
  induction draws as [|d rest IH]; intros Hall.
  - split; [constructor|reflexivity].
  - inversion Hall as [|? ? Hd Hrest]; subst.
    destruct (IH Hrest) as [IH1 IH2].
    destruct (utf8_char_high d Hd) as [Heq Hhigh].
    cbn [map concat]. split.
    + apply Forall_app. split; assumption.
    + rewrite length_app, IH2, Heq. cbn [length]. lia.
Qed.

(** X19. The non-ASCII corruption of the test generator is always
    caught. Whatever numbers between 128 and 255 are drawn, the file
    written holds two bytes per character, all of them 128 or more, and
    the analyzer answers [non_ascii] with no profile for it once its
    modification time has changed. *)
Theorem corrupt_to_non_ascii_is_detected (log2 : Q -> Q)
    (blake3_hexdigest : list byte -> string) (format_f : nat -> Q -> string)
    (draws : list Z) (path : Path) (prev : option BaselineEntry)
    (fs : FileView) (s : stat_result) :
  Forall (fun d => (128 <= d <= 255)%Z) draws ->
  draws <> [] ->
  stat fs = Return s ->
  mtime_changed prev (st_mtime s) ->
  lower (suffix path) = ".txt" ->
  read_bytes fs = Return (corrupt_to_non_ascii draws) ->
  Forall (fun b => (128 <= byte_val b)%Z) (corrupt_to_non_ascii draws)
  /\ length (corrupt_to_non_ascii draws) = (2 * length draws)%nat
  /\ analyze_file_single_pass log2 blake3_hexdigest format_f path (BEntry <$> prev) fs
     = ([], Return (["non_ascii"], None)).
Proof.
  intros Hall Hne Hs Hm Hsuf Hr.
  destruct (corrupt_bytes_high draws Hall) as [Hhigh Hlen].
  split; [exact Hhigh|]. split; [exact Hlen|].
  assert (Hraw : corrupt_to_non_ascii draws <> []).
  { intros H. rewrite H in Hlen. destruct draws; [contradiction|discriminate Hlen]. }
  unfold analyze_file_single_pass.
  rewrite (analyze_reaches_scan _ _ _ _ _ _ _ _ _ Hs Hm Hsuf Hr Hraw).
  destruct (corrupt_to_non_ascii draws) as [|b rest]; [contradiction|].
  inversion Hhigh as [|? ? Hb _]; subst.
  rewrite (scan_bytes_non_ascii (b :: rest) b [] 0%Z); [reflexivity| |lia].
  apply list_elem_of_here.
Qed.

(** ** The further properties on concrete inputs *)

Lemma extension_is_conclusive_witness :
  sample_analyze "/watched/notes.txt.locked" (Some (BEntry sample_entry))
     (view_of 200 (Raise "[Errno 13] Permission denied"))
  = ([], Return (["extension"], None)).
Proof.
  apply (extension_is_conclusive sample_log2 sample_hexdigest sample_format
           "/watched/notes.txt.locked" (Some sample_entry)
           (view_of 200 (Raise "[Errno 13] Permission denied"))
           {| st_mtime := 200; st_size := 10 |}).
  - reflexivity.
  - simpl. intros H. vm_compute in H. discriminate H.
  - vm_compute. discriminate.
Defined.

Lemma empty_file_profile_witness :
  sample_analyze sample_path None (view_of 200 (Return []))
  = ([], Return ([], Some {| p_checksum := ""; p_entropy := 0; p_mtime := 200;
                            p_timestamp := "t1"; p_ngram := ∅; p_size := 10 |})).
Proof.
  apply (empty_file_profile sample_log2 sample_hexdigest sample_format
           sample_path None (view_of 200 (Return []))
           {| st_mtime := 200; st_size := 10 |}).
  - reflexivity.
  - exact I.
  - reflexivity.
  - reflexivity.
Defined.

Lemma returned_profile_describes_file_witness :
  let fs := view_of 200 (Return all_printable) in
  let pr := match snd (sample_analyze sample_path None fs) with
            | Return (_, Some pr) => pr
            | _ => sample_profile
            end in
  exists (s : stat_result) (raw : list byte),
    stat fs = Return s
    /\ read_bytes fs = Return raw
    /\ lower (suffix sample_path) = ".txt"
    /\ Forall (fun b => (byte_val b < 127)%Z) raw
    /\ p_mtime pr = st_mtime s
    /\ p_checksum pr = blake3sum sample_hexdigest raw
    /\ p_timestamp pr = now_iso fs
    /\ (p_ngram pr = ∅ \/ p_ngram pr = ngram_profile raw)
    /\ (raw = [] -> p_entropy pr = 0%Q /\ p_ngram pr = ∅)
    /\ (raw <> [] ->
        p_size pr = total_of raw
        /\ p_entropy pr = entropy sample_log2 (histogram raw) (total_of raw)).
Proof.
  intros fs pr.
  apply (returned_profile_describes_file sample_log2 sample_hexdigest
           sample_format sample_path None fs [] [] pr).
  subst pr fs. reflexivity.
Defined.

Lemma recorded_file_is_skipped_witness :
  let env := sample_tick (view_of 200 (Return all_printable)) in
  let env2 := sample_tick (view_of 200 (Return mostly_control)) in
  let st1 := fst (sample_scan sample_path env (sample_state ∅)) in
  sample_scan sample_path env2 st1 = (st1, Return ()).
Proof.
  intros env env2 st1.
  edestruct (recorded_file_is_skipped sample_log2 sample_hexdigest sample_format
               sample_path env env2 (sample_state ∅) st1
               {| st_mtime := 200; st_size := 10 |}
               {| st_mtime := 200; st_size := 10 |}) as [H _].
  - subst env. reflexivity.
  - subst st1 env. reflexivity.
  - reflexivity.
  - reflexivity.
  - reflexivity.
  - exact H.
Defined.

Lemma reloaded_ngrams_always_flag_witness :
  let e := {| history := [];
              latest := {| p_checksum := "C1"; p_entropy := 1; p_mtime := 100;
                           p_timestamp := "t0";
                           p_ngram := {[ inr "b'ABC'" := 1%Z ]};
                           p_size := 10 |} |} in
  let sim := jaccard (p_ngram (latest e)) (ngram_profile all_printable) in
  (sim == 0)%Q
  /\ exists pr,
       analyze_file_single_pass zero_log2 sample_hexdigest sample_format
         sample_path (Some (BEntry e)) (view_of 200 (Return all_printable))
       = ([("[DEBUG] Jaccard similarity: " ++ sample_format 3 sim)%string],
          Return ([ngram_reason sample_format sim], Some pr))
       /\ p_ngram pr = ngram_profile all_printable.
Proof.
  intros e.
  apply (reloaded_ngrams_always_flag zero_log2 sample_hexdigest sample_format
           sample_path e (view_of 200 (Return all_printable))
           {| st_mtime := 200; st_size := 10 |} all_printable).
  - reflexivity.
  - simpl. intros H. vm_compute in H. discriminate H.
  - reflexivity.
  - reflexivity.
  - discriminate.
  - repeat constructor.
  - apply map_non_empty_singleton.
  - intros k Hk. subst e. cbn [latest p_ngram] in Hk.
    rewrite dom_singleton_L in Hk. apply elem_of_singleton in Hk. eauto.
  - reflexivity.
  - reflexivity.
  - vm_compute. reflexivity.
Defined.

Lemma gated_event_is_not_analysed_witness :
  let env := sample_tick (view_of 200 (Raise "[Errno 2] No such file")) in
  sample_process "/watched/.notes.txt.swp" env (sample_state sample_base)
  = (sample_state sample_base, Return ()).
Proof.
  intros env.
  destruct (gated_event_is_not_analysed sample_log2 sample_hexdigest sample_format
              "/watched/.notes.txt.swp" env (sample_state sample_base))
    as (H1 & H2 & H3 & H4).
  - right. left. reflexivity.
  - reflexivity.
Defined.

Lemma flood_stops_analysis_witness :
  let st := {| base := sample_base;
               events_window := [996; 996; 997; 997; 998; 998; 999; 999; 999]%Q;
               last_alerts := ∅; stdout := [] |} in
  let env := sample_tick (view_of 200 (Return mostly_control)) in
  base (fst (sample_process sample_path env st)) = sample_base
  /\ stdout (fst (sample_process sample_path env st))
     = ["[ALERT] ★ -> burst>10 in 5s"].
Proof.
  intros st env.
  destruct (flood_stops_analysis sample_log2 sample_hexdigest sample_format
              sample_path env st 996%Q
              [996; 997; 997; 998; 998; 999; 999; 999]%Q) as [Hp Hb];
    try reflexivity.
  split; [exact Hb|]. rewrite Hp. reflexivity.
Defined.

Lemma vanished_file_raises_witness :
  let gone := sample_tick {| stat := Raise "[Errno 2] No such file";
                             read_bytes := Raise "[Errno 2] No such file";
                             stat_again := Raise "[Errno 2] No such file";
                             now_iso := "t1" |} in
  let later := sample_tick (view_of 200 (Return all_printable)) in
  scan_files sample_log2 sample_hexdigest sample_format
    [(sample_path, gone); ("/watched/todo.txt", later)] (sample_state ∅)
  = (sample_state ∅, Raise "[Errno 2] No such file")
  /\ snd (sample_process sample_path gone (sample_state ∅))
     = Raise "[Errno 2] No such file".
Proof.
  intros gone later.
  destruct (vanished_file_raises sample_log2 sample_hexdigest sample_format
              sample_path gone "[Errno 2] No such file" []
              [("/watched/todo.txt", later)] (sample_state ∅) (sample_state ∅))
    as (H1 & _ & H3); try reflexivity.
  split; [exact H1|]. rewrite H3; reflexivity.
Defined.

Lemma convert_writes_string_keys_witness :
  let pr := {| p_checksum := "C2"; p_entropy := 3; p_mtime := 200;
               p_timestamp := "t1"; p_ngram := ngram_profile all_printable;
               p_size := 10 |} in
  (jaccard (p_ngram (convert_profile sample_bytes_str pr))
           (ngram_profile all_printable) == 0)%Q.
Proof.
  intros pr.
  apply (convert_writes_string_keys sample_bytes_str
           {[ str sample_path := BEntry {| history := [pr]; latest := pr |} ]}
           (str sample_path)
           (convert_entry sample_bytes_str {| history := [pr]; latest := pr |})
           (convert_profile sample_bytes_str pr) all_printable).
  - unfold convert. rewrite map_fmap_singleton. apply lookup_singleton_eq.
  - apply list_elem_of_here.
Defined.

Lemma corrupt_to_non_ascii_is_detected_witness :
  corrupt_to_non_ascii [233; 128; 255]%Z = [xc3; xa9; xc2; x80; xc3; xbf]
  /\ sample_analyze sample_path (Some (BEntry sample_entry))
       (view_of 200 (Return (corrupt_to_non_ascii [233; 128; 255]%Z)))
     = ([], Return (["non_ascii"], None)).
Proof.
  split; [reflexivity|].
  apply (corrupt_to_non_ascii_is_detected sample_log2 sample_hexdigest sample_format
           [233; 128; 255]%Z sample_path (Some sample_entry)
           (view_of 200 (Return (corrupt_to_non_ascii [233; 128; 255]%Z)))
           {| st_mtime := 200; st_size := 10 |}).
  - repeat constructor; lia.
  - discriminate.
  - reflexivity.
  - simpl. intros H. vm_compute in H. discriminate H.
  - reflexivity.
  - reflexivity.
Defined.

(** ** Reordered content *)

Lemma occurrences_perm (b : byte) (raw raw' : list byte) :
  Permutation raw raw' -> occurrences b raw' = occurrences b raw.
Proof.
  induction 1; cbn [occurrences]; lia.
Qed.

Lemma printable_count_perm (raw raw' : list byte) :
  Permutation raw raw' -> printable_count raw' = printable_count raw.
Proof.
  induction 1; cbn [printable_count]; lia.
Qed.

Lemma scan_bytes_early_return (raw : list byte) :
  scan_bytes raw [] 0 = None <-> Exists (fun b => (127 <= byte_val b)%Z) raw.
Proof.
  split.
  - intros H. pose proof (scan_bytes_spec raw [] 0%Z) as Hs.
    rewrite H in Hs. exact Hs.
  - intros H. apply Exists_exists in H as (b & Hin & Hb).
    apply (scan_bytes_non_ascii raw b); [exact Hin|exact Hb].
Qed.

(** X20. The counts do not see a reordering. Content with the same bytes
    in another order has the same length, the same count for every byte
    value in the histogram, the same number of printable bytes and the
    same printable ratio, and contains a byte that is not below 127
    exactly when the other does: the [non_ascii] test and the
    low-printable test answer the same for both. *)
Theorem shuffle_keeps_counts (format_f : nat -> Q -> string)
    (raw raw' : list byte) :
  Permutation raw raw' ->
  total_of raw' = total_of raw
  /\ (forall b, counter_get b (histogram raw') = counter_get b (histogram raw))
  /\ printable_count raw' = printable_count raw
  /\ printable_ratio_of raw' = printable_ratio_of raw
  /\ reasons_printable format_f (printable_ratio_of raw')
     = reasons_printable format_f (printable_ratio_of raw)
  /\ (scan_bytes raw' [] 0 = None <-> scan_bytes raw [] 0 = None).
Proof.
  intros Hp.
  assert (Hlen : total_of raw' = total_of raw).
  { unfold total_of. rewrite (Permutation_length Hp). reflexivity. }
  assert (Hratio : printable_ratio_of raw' = printable_ratio_of raw).
  { unfold printable_ratio_of. rewrite Hlen, (printable_count_perm _ _ Hp).
    reflexivity. }
  destruct (histogram_from_spec raw [] NoDup_nil_2) as (_ & Hget & _).
  destruct (histogram_from_spec raw' [] NoDup_nil_2) as (_ & Hget' & _).
  split; [exact Hlen|]. split.
  { intros b. unfold histogram. rewrite Hget, Hget'.
    rewrite (occurrences_perm b _ _ Hp). reflexivity. }
  split; [apply printable_count_perm, Hp|]. split; [exact Hratio|].
  split; [rewrite Hratio; reflexivity|].
  rewrite !scan_bytes_early_return, !Exists_exists.
  split; intros (b & Hin & Hb); exists b; (split; [|exact Hb]).
  - apply list_elem_of_In, (Permutation_in b (Permutation_sym Hp)).
    apply list_elem_of_In, Hin.
  - apply list_elem_of_In, (Permutation_in b Hp). apply list_elem_of_In, Hin.
Qed.

Lemma shuffle_keeps_counts_witness :
  printable_ratio_of [x43; x41; x01] = printable_ratio_of [x41; x01; x43]
  /\ counter_get x43 (histogram [x43; x41; x01])
     = counter_get x43 (histogram [x41; x01; x43]).
Proof.
  destruct (shuffle_keeps_counts sample_format
              [x41; x01; x43] [x43; x41; x01]) as (_ & H2 & _ & H4 & _).
  - apply (perm_trans (l' := [x41; x43; x01])).
    + apply perm_skip, perm_swap.
    + apply perm_swap.
  - split; [exact H4|apply H2].
Defined.

(** ** Which findings are recorded *)

Section Recording.

Variable log2 : Q -> Q.
Variable blake3_hexdigest : list byte -> string.
Variable format_f : nat -> Q -> string.

Local Abbreviation analyze :=
  (analyze_file_single_pass log2 blake3_hexdigest format_f).
Local Abbreviation assessN := (assess log2 blake3_hexdigest format_f).
Local Abbreviation rchecksum := (reasons_checksum format_f).
Local Abbreviation process := (_process log2 blake3_hexdigest format_f).
Local Abbreviation scan := (scan_file log2 blake3_hexdigest format_f).



(** X22. The handler and the seed scan run the same pipeline. For a
    notification that passes the three gates, whenever the scan step on
    the same file returns normally, the handler ends in the very same
    state as that scan step started from the state with the updated
    window. *)
Theorem process_is_scan_behind_gates (p : Path) (env : Tick) (st : State) :
  is_honeypot (base st) (name p) = false ->
  ignored (name p) = false ->
  snd (_too_many_events (now_burst env) (events_window st)) = false ->
  let st0 := set_window (fst (_too_many_events (now_burst env) (events_window st))) st in
  snd (scan p env st0) = Return () ->
  process p env st = scan p env st0.
Proof.
  intros Hh Hi Hb st0. subst st0. unfold _process, scan_file.
  rewrite Hh, Hi.
  destruct (_too_many_events (now_burst env) (events_window st)) as [w burst].
  cbn [snd] in Hb. subst burst. cbn [fst base set_window].
  destruct (analyze p (base st !! str p) (view env)) as [printed [[rs pf]|e]];
    [|reflexivity].
  destruct (is_nil rs) eqn:En.
  - cbn [base print set_window].
    destruct (record_if (str p) pf (base st)); reflexivity.
  - rewrite alert_base. cbn [base print set_window].
    destruct (record_if (str p) pf (base st)) as [b|e]; [|discriminate].
    intros _. f_equal. unfold alert, set_base.
    destruct (suppressed _ _ _); reflexivity.
Qed.

End Recording.


Lemma process_is_scan_behind_gates_witness :
  let env := sample_tick (view_of 200 (Return all_printable)) in
  sample_process sample_path env (sample_state sample_base)
  = sample_scan sample_path env (set_window [1000%Q] (sample_state sample_base)).
Proof.
  intros env.
  apply (process_is_scan_behind_gates sample_log2 sample_hexdigest sample_format
           sample_path env (sample_state sample_base)); reflexivity.
Defined.

(** ** The cap, and the two ways a file can be unreadable *)

Lemma set_base_same (st : State) : set_base (base st) st = st.
Proof. destruct st. reflexivity. Qed.

Section CapAndStat.

Variable log2 : Q -> Q.
Variable blake3_hexdigest : list byte -> string.
Variable format_f : nat -> Q -> string.

Local Abbreviation analyze :=
  (analyze_file_single_pass log2 blake3_hexdigest format_f).
Local Abbreviation rchecksum := (reasons_checksum format_f).
Local Abbreviation process := (_process log2 blake3_hexdigest format_f).
Local Abbreviation scan := (scan_file log2 blake3_hexdigest format_f).


(** C4. A file that cannot be read is reported when [read_bytes] fails
    and is fatal when [stat] fails. For a [.txt] path whose content
    cannot be read: if the first [stat] answers and the modification time
    has changed, the analyzer returns [read_error:<cause>] with no
    profile, and the handler (behind its gates) and the seed scan print
    the error line, raise the alert for the path and return normally; if
    the first [stat] itself fails, the analyzer, the handler and the seed
    scan all raise, and no finding is reported. *)
Theorem unreadable_file_is_reported_or_fatal (path : Path)
    (prev : option BaselineEntry) (env : Tick) (st : State) (e : string) :
  base st !! str path = BEntry <$> prev ->
  is_honeypot (base st) (name path) = false ->
  ignored (name path) = false ->
  snd (_too_many_events (now_burst env) (events_window st)) = false ->
  lower (suffix path) = ".txt" ->
  read_bytes (view env) = Raise e ->
  let st0 := set_window (fst (_too_many_events (now_burst env) (events_window st))) st in
  let line := ("[ERROR] Failed to read " ++ name path ++ ": " ++ e)%string in
  let finding := [("read_error:" ++ e)%string] in
  (forall s, stat (view env) = Return s ->
             mtime_changed prev (st_mtime s) ->
     analyze path (BEntry <$> prev) (view env) = ([line], Return (finding, None))
     /\ process path env st
        = (alert path finding (now_alert env) (print [line] st0), Return ())
     /\ scan path env st
        = (alert path finding (now_alert env) (print [line] st), Return ()))
  /\ (forall e', stat (view env) = Raise e' ->
     analyze path (BEntry <$> prev) (view env) = ([], Raise e')
     /\ process path env st = (st0, Raise e')
     /\ scan path env st = (st, Raise e')).
Proof.
  intros Hb Hh Hi Hburst Hsuf Hr st0 line finding. subst st0 line finding. split.
  - intros s Hs Hm.
    set (line := ("[ERROR] Failed to read " ++ name path ++ ": " ++ e)%string).
    assert (Ha : analyze path (BEntry <$> prev) (view env)
                 = ([line], Return ([("read_error:" ++ e)%string], None))).
    { unfold analyze_file_single_pass, analyze_with.
      rewrite Hs, prev_latest_of_entry, (mtime_test_false _ _ Hm), Hsuf, Hr.
      reflexivity. }
    split; [exact Ha|]. split.
    + unfold _process. rewrite Hh, Hi.
      destruct (_too_many_events (now_burst env) (events_window st)) as [w burst].
      cbn [snd] in Hburst. subst burst. cbn [fst base set_window].
      rewrite Hb, Ha. cbn [is_nil record_if].
      rewrite set_base_same. reflexivity.
    + unfold scan_file. rewrite Hb, Ha. cbn [is_nil record_if].
      rewrite set_base_same. reflexivity.
  - intros e' Hs.
    assert (Ha : analyze path (BEntry <$> prev) (view env) = ([], Raise e')).
    { unfold analyze_file_single_pass, analyze_with. rewrite Hs. reflexivity. }
    split; [exact Ha|]. split.
    + unfold _process. rewrite Hh, Hi.
      destruct (_too_many_events (now_burst env) (events_window st)) as [w burst].
      cbn [snd] in Hburst. subst burst. cbn [fst base set_window].
      rewrite Hb, Ha, print_nothing. reflexivity.
    + unfold scan_file. rewrite Hb, Ha, print_nothing. reflexivity.
Qed.

End CapAndStat.



Lemma unreadable_file_is_reported_or_fatal_witness :
  let gone := sample_tick {| stat := Raise "[Errno 2] No such file or directory";
                             read_bytes := Raise "[Errno 2] No such file or directory";
                             stat_again := Raise "[Errno 2] No such file or directory";
                             now_iso := "t1" |} in
  let locked := sample_tick (view_of 200 (Raise "[Errno 13] Permission denied")) in
  let st := sample_state sample_base in
  (sample_analyze sample_path (Some (BEntry sample_entry)) (view gone)
   = ([], Raise "[Errno 2] No such file or directory")
   /\ sample_process sample_path gone st
      = (set_window [1000%Q] st, Raise "[Errno 2] No such file or directory")
   /\ sample_scan sample_path gone st
      = (st, Raise "[Errno 2] No such file or directory"))
  /\ (sample_analyze sample_path (Some (BEntry sample_entry)) (view locked)
      = (["[ERROR] Failed to read notes.txt: [Errno 13] Permission denied"],
         Return (["read_error:[Errno 13] Permission denied"], None))
      /\ stdout (fst (sample_process sample_path locked st))
         = ["[ERROR] Failed to read notes.txt: [Errno 13] Permission denied";
            "[ALERT] /watched/notes.txt -> read_error:[Errno 13] Permission denied"]).
Proof.
  intros gone locked st.
  destruct (unreadable_file_is_reported_or_fatal sample_log2 sample_hexdigest
              sample_format sample_path (Some sample_entry) gone st
              "[Errno 2] No such file or directory") as [_ Hfatal];
    try reflexivity.
  destruct (unreadable_file_is_reported_or_fatal sample_log2 sample_hexdigest
              sample_format sample_path (Some sample_entry) locked st
              "[Errno 13] Permission denied") as [Hreported _];
    try reflexivity.
  split.
  - apply Hfatal. reflexivity.
  - destruct (Hreported {| st_mtime := 200; st_size := 10 |}) as (Ha & Hp & _).
    + reflexivity.
    + simpl. intros H. vm_compute in H. discriminate H.
    + split; [exact Ha|]. rewrite Hp. reflexivity.
Defined.
